(** * mcp_factory/server.py: the transport-abstracted RPC proxy

    A shallow embedding of the proxy half of [scripts/mcp_factory/server.py]
    (the facade [remote_discover] / [remote_call], the two transports
    [_stdio_request] / [_sse_request], the framing helpers and the two result
    formatters), followed by the properties of the specification that are
    stated about it.

    Python values that come out of [json.loads] are a tree [json]; the
    dynamically typed operations the source applies to them ([in], [x[k]],
    [x.get(k, d)], truthiness, iteration, [str()]) are written out with the
    exception each raises on a value of the wrong type.  Everything the
    source does to the outside (files, child processes, HTTP) goes through a
    state-and-exception monad over a [World] that holds the scripted
    behaviour of the environment and the trace of what the proxy did. *)

From Stdlib Require Import String Ascii List ZArith Bool Lia DecimalString.
Import ListNotations.
Local Open Scope list_scope.
Local Open Scope string_scope.

Set Warnings "-register-all".

(* ===================================================================== *)
(** ** Python values *)
(* ===================================================================== *)

(** What [json.loads] can return.  A dict keeps its insertion order, so it
    is an association list; lookups take the first binding of a key.  A
    float is held by its [repr()], the shortest decimal text that reads
    back as the same float (["0.5"], ["1e+22"], ["nan"]). *)
Inductive json : Type :=
| JNull
| JBool (b : bool)
| JInt (n : Z)
| JFloat (repr : string)
| JStr (s : string)
| JArr (items : list json)
| JObj (fields : list (string * json)).

(** The exceptions the proxy code can meet.  [OSError] stands for the whole
    family raised by the operating system (missing executable, broken
    pipe); [HTTPError] for what the HTTP client raises. *)
Inductive exn : Type :=
| TimeoutError
| KeyError (key : string)
| TypeError
| AttributeError
| JSONDecodeError
| OSError (what : string)
| HTTPError (what : string).

(** The outcome of a Python call: a value, or an exception on its way up. *)
Inductive result (A : Type) : Type :=
| Return (a : A)
| Raise (e : exn).
Arguments Return {A} a.
Arguments Raise {A} e.

Definition rbind {A B} (r : result A) (k : A -> result B) : result B :=
  match r with
  | Return a => k a
  | Raise e => Raise e
  end.

Declare Scope result_scope.
Delimit Scope result_scope with result.
Notation "x <- r ;; k" := (rbind r (fun x => k))
  (at level 100, r at next level, right associativity) : result_scope.

Definition is_return {A} (r : result A) : bool :=
  match r with Return _ => true | Raise _ => false end.

(** *** Lists and dicts *)

(** [l.append(x)] and [l.extend(l')], as the new value of [l]. *)
Definition append {A} (l : list A) (x : A) : list A := (l ++ [x])%list.
Definition extend {A} (l l' : list A) : list A := (l ++ l')%list.

Fixpoint lookup (k : string) (d : list (string * json)) : option json :=
  match d with
  | [] => None
  | (k', v) :: d' => if String.eqb k k' then Some v else lookup k d'
  end.

Definition has_key (k : string) (d : list (string * json)) : bool :=
  match lookup k d with Some _ => true | None => false end.

(** [d[k] = v] on a dict: an existing key keeps its place. *)
Fixpoint dict_set (k : string) (v : json) (d : list (string * json))
  : list (string * json) :=
  match d with
  | [] => [(k, v)]
  | (k', v') :: d' =>
      if String.eqb k k' then (k', v) :: d' else (k', v') :: dict_set k v d'
  end.

(** [{**a, **b}] *)
Definition dict_merge (a b : list (string * json)) : list (string * json) :=
  fold_left (fun acc kv => dict_set (fst kv) (snd kv) acc) b a.

(** *** Strings *)

Fixpoint is_prefix (p s : string) : bool :=
  match p, s with
  | EmptyString, _ => true
  | String a p', String b s' => Ascii.eqb a b && is_prefix p' s'
  | String _ _, EmptyString => false
  end.

(** [p in s] on two strings. *)
Fixpoint is_substring (p s : string) : bool :=
  is_prefix p s ||
  match s with
  | EmptyString => false
  | String _ s' => is_substring p s'
  end.

(** ["sep".join(parts)] *)
Fixpoint join (sep : string) (parts : list string) : string :=
  match parts with
  | [] => ""
  | [p] => p
  | p :: rest => p ++ sep ++ join sep rest
  end.

Fixpoint string_rev_acc (s acc : string) : string :=
  match s with
  | EmptyString => acc
  | String c s' => string_rev_acc s' (String c acc)
  end.

Fixpoint drop_leading (c : ascii) (s : string) : string :=
  match s with
  | String c' s' => if Ascii.eqb c c' then drop_leading c s' else s
  | EmptyString => EmptyString
  end.

(** [s.rstrip("/")] *)
Definition rstrip_slash (s : string) : string :=
  string_rev_acc (drop_leading "/"%char (string_rev_acc s "")) "".

Fixpoint chars (s : string) : list json :=
  match s with
  | EmptyString => []
  | String c s' => JStr (String c "") :: chars s'
  end.

(** *** The dynamically typed operations *)

(** [bool(v)]: among the floats only zero, whose [repr()] is ["0.0"] or
    ["-0.0"], is false. *)
Definition truthy (v : json) : bool :=
  match v with
  | JNull => false
  | JBool b => b
  | JInt n => negb (Z.eqb n 0)
  | JFloat x => negb (String.eqb x "0.0" || String.eqb x "-0.0")
  | JStr s => negb (String.eqb s "")
  | JArr l => match l with [] => false | _ => true end
  | JObj d => match d with [] => false | _ => true end
  end.

(** [v == "s"] for a string literal: only a string can be equal to it. *)
Definition eq_str (v : json) (s : string) : bool :=
  match v with
  | JStr s' => String.eqb s' s
  | _ => false
  end.

(** [k in v] *)
Definition py_in (k : string) (v : json) : result bool :=
  match v with
  | JObj d => Return (has_key k d)
  | JArr l => Return (existsb (fun x => eq_str x k) l)
  | JStr s => Return (is_substring k s)
  | _ => Raise TypeError
  end.

(** [v[k]] with a string key *)
Definition py_getitem (v : json) (k : string) : result json :=
  match v with
  | JObj d => match lookup k d with
              | Some x => Return x
              | None => Raise (KeyError k)
              end
  | _ => Raise TypeError
  end.

(** [v.get(k, default)]: only a dict has the method. *)
Definition py_get (v : json) (k : string) (default : json) : result json :=
  match v with
  | JObj d => match lookup k d with
              | Some x => Return x
              | None => Return default
              end
  | _ => Raise AttributeError
  end.

(** [v.items()] *)
Definition py_items (v : json) : result (list (string * json)) :=
  match v with
  | JObj d => Return d
  | _ => Raise AttributeError
  end.

(** [for x in v]: the sequence the loop runs over. *)
Definition py_iter (v : json) : result (list json) :=
  match v with
  | JArr l => Return l
  | JObj d => Return (map (fun kv => JStr (fst kv)) d)
  | JStr s => Return (chars s)
  | _ => Raise TypeError
  end.

(** ["sep".join(parts)]: every part has to be a string already. *)
Fixpoint all_strings (parts : list json) : result (list string) :=
  match parts with
  | [] => Return []
  | JStr s :: rest =>
      match all_strings rest with
      | Return l => Return (s :: l)
      | Raise e => Raise e
      end
  | _ :: _ => Raise TypeError
  end.

Definition py_join (sep : string) (parts : list json) : result string :=
  match all_strings parts with
  | Return l => Return (join sep l)
  | Raise e => Raise e
  end.

Definition nl : string := String (ascii_of_nat 10) "".

Definition is_str (v : json) : bool :=
  match v with JStr _ => true | _ => false end.

(* ===================================================================== *)
(** ** The world outside the proxy *)
(* ===================================================================== *)

(** What one [readline()] on the child's standard output yields within the
    time allowed: a line (the empty line at end of file), nothing, or an
    exception of the stream itself. *)
Inductive ReadResult : Type :=
| Line (data : string)
| Silent
| Broken (e : exn).

(** What the proxy does to the outside, in the order it does it. *)
Inductive Event : Type :=
| EMkdirs
| EAudit (action details : string)
| ESpawn (cmd : list json) (env : list (string * json))
| ESend (pid : nat) (data : string)
| ERecv (pid : nat) (timeout : Z)
| ETerminate (pid : nat)
| EWait (pid : nat) (timeout : Z)
| EKill (pid : nat)
| EPost (url : string) (headers : list (string * string)) (body : json).

(** The first group of fields is the behaviour of the environment, fixed
    in advance; the second is the state the proxy's actions change.
    [stdin_script] and [stdout_script] are consumed one entry per write
    and per read; past their end a write succeeds and a read stays
    silent. *)
Record World : Type := mkWorld {
  registry_file : option string;
  environ : list (string * string);
  spawn_script : option exn;
  exits_on_sigterm : bool;
  httpx_installed : bool;
  http_script : result string;
  stdin_script : list (option exn);
  stdout_script : list ReadResult;
  next_pid : nat;
  running : list nat;
  trace : list Event
}.

Definition log (ev : Event) (w : World) : World :=
  mkWorld (registry_file w) (environ w) (spawn_script w) (exits_on_sigterm w)
          (httpx_installed w) (http_script w) (stdin_script w)
          (stdout_script w) (next_pid w) (running w) (append (trace w) ev).

Definition set_stdin (l : list (option exn)) (w : World) : World :=
  mkWorld (registry_file w) (environ w) (spawn_script w) (exits_on_sigterm w)
          (httpx_installed w) (http_script w) l
          (stdout_script w) (next_pid w) (running w) (trace w).

Definition set_stdout (l : list ReadResult) (w : World) : World :=
  mkWorld (registry_file w) (environ w) (spawn_script w) (exits_on_sigterm w)
          (httpx_installed w) (http_script w) (stdin_script w)
          l (next_pid w) (running w) (trace w).

(** A child starts: it takes the next process id and is running. *)
Definition start_child (w : World) : World :=
  mkWorld (registry_file w) (environ w) (spawn_script w) (exits_on_sigterm w)
          (httpx_installed w) (http_script w) (stdin_script w)
          (stdout_script w) (S (next_pid w)) (next_pid w :: running w)
          (trace w).

(** A child is gone. *)
Definition reap (pid : nat) (w : World) : World :=
  mkWorld (registry_file w) (environ w) (spawn_script w) (exits_on_sigterm w)
          (httpx_installed w) (http_script w) (stdin_script w)
          (stdout_script w) (next_pid w)
          (filter (fun p => negb (Nat.eqb p pid)) (running w)) (trace w).

(** *** State and exceptions *)

Definition M (A : Type) : Type := World -> result A * World.

Definition ret {A} (a : A) : M A := fun w => (Return a, w).

Definition raise {A} (e : exn) : M A := fun w => (Raise e, w).

Definition lift {A} (r : result A) : M A := fun w => (r, w).

Definition bind {A B} (m : M A) (k : A -> M B) : M B :=
  fun w =>
    match m w with
    | (Return a, w') => k a w'
    | (Raise e, w') => (Raise e, w')
    end.

Declare Scope io_scope.
Delimit Scope io_scope with io.
Notation "x <- m ;; k" := (bind m (fun x => k))
  (at level 100, m at next level, right associativity) : io_scope.
Notation "m ;; k" := (bind m (fun _ => k))
  (at level 100, right associativity) : io_scope.

(** [try: body finally: fin].  The outcome of [body] stands unless [fin]
    itself raises. *)
Definition try_finally {A} (body : M A) (fin : M unit) : M A :=
  fun w =>
    let (r, w1) := body w in
    match fin w1 with
    | (Return _, w2) => (r, w2)
    | (Raise e, w2) => (Raise e, w2)
    end.

(** [try: body except ...: handler] with handlers that take every
    exception of the model. *)
Definition try_except {A} (body : M A) (handler : exn -> M A) : M A :=
  fun w =>
    match body w with
    | (Return a, w1) => (Return a, w1)
    | (Raise e, w1) => handler e w1
    end.

(** *** Primitives of [asyncio], [httpx] and the file system *)

(** [asyncio.create_subprocess_exec] on [cmd] and [env]: arguments and
    environment values that are not strings are refused before anything is
    started; otherwise the operating system is asked, and answers. *)
Definition create_subprocess_exec (cmd : list json)
  (env : list (string * json)) : M nat :=
  fun w =>
    if forallb is_str cmd && forallb (fun kv => is_str (snd kv)) env then
      let w1 := log (ESpawn cmd env) w in
      match spawn_script w1 with
      | Some e => (Raise e, w1)
      | None => (Return (next_pid w1), start_child w1)
      end
    else (Raise TypeError, w).

(** [proc.stdin.write(data); await proc.stdin.drain()] *)
Definition stdin_write (proc : nat) (data : string) : M unit :=
  fun w =>
    let w1 := log (ESend proc data) w in
    match stdin_script w1 with
    | Some e :: rest => (Raise e, set_stdin rest w1)
    | None :: rest => (Return tt, set_stdin rest w1)
    | [] => (Return tt, w1)
    end.

(** [await asyncio.wait_for(proc.stdout.readline(), timeout=timeout)] *)
Definition stdout_readline (proc : nat) (timeout : Z) : M string :=
  fun w =>
    let w1 := log (ERecv proc timeout) w in
    match stdout_script w1 with
    | Line data :: rest => (Return data, set_stdout rest w1)
    | Silent :: rest => (Raise TimeoutError, set_stdout rest w1)
    | Broken e :: rest => (Raise e, set_stdout rest w1)
    | [] => (Raise TimeoutError, w1)
    end.

(** [proc.terminate()]: the signal is sent; sending it is taken to
    succeed, as is the [SIGKILL] of [proc.kill()] below, after which the
    process is gone. *)
Definition terminate (proc : nat) : M unit :=
  fun w => (Return tt, log (ETerminate proc) w).

(** [await asyncio.wait_for(proc.wait(), timeout=timeout)] after the
    request to terminate. *)
Definition wait_for_exit (proc : nat) (timeout : Z) : M unit :=
  fun w =>
    let w1 := log (EWait proc timeout) w in
    if exits_on_sigterm w1 then (Return tt, reap proc w1)
    else (Raise TimeoutError, w1).

(** [proc.kill()] *)
Definition kill (proc : nat) : M unit :=
  fun w => (Return tt, reap proc (log (EKill proc) w)).

(** [await client.post(url, json=body, headers=headers)], giving the text
    of the reply. *)
Definition http_post (url : string) (body : json)
  (headers : list (string * string)) : M string :=
  fun w =>
    let w1 := log (EPost url headers body) w in
    (http_script w1, w1).

(** [_ensure_dirs()] *)
Definition _ensure_dirs : M unit :=
  fun w => (Return tt, log EMkdirs w).

(** [_audit(action, details)] *)
Definition _audit (action details : string) : M unit :=
  bind _ensure_dirs (fun _ w => (Return tt, log (EAudit action details) w)).

(* ===================================================================== *)
(** ** The Python runtime the source calls into *)
(* ===================================================================== *)

(** Library functions of the interpreter, not of this repository.  The
    development is parametric in them: [json_loads] is [json.loads]
    ([None] when it raises [JSONDecodeError]), [json_dumps] is
    [json.dumps], [py_repr] is [repr()] and [exn_str] is [str()] of an
    exception. *)
Class Runtime : Type := {
  json_loads : string -> option json;
  json_dumps : json -> string;
  py_repr : json -> string;
  exn_str : exn -> string
}.

Section Proxy.

Context {rt : Runtime}.

(** [str(v)], which is what an f-string applies: a string is itself, any
    other value prints as its [repr]. *)
Definition py_str (v : json) : string :=
  match v with
  | JStr s => s
  | _ => py_repr v
  end.

(* ===================================================================== *)
(** ** Result formatters (server.py, lines 551-580) *)
(* ===================================================================== *)

Local Open Scope result_scope.

(** The body of the inner loop of [_format_tools]: the text appended to
    [params] for one [(pname, pschema)] of [props.items()]. *)
Definition param_line (pname : string) (pschema : json) : result string :=
  ptype <- py_get pschema "type" (JStr "any") ;;
  pdesc <- py_get pschema "description" (JStr "") ;;
  Return ("    " ++ pname ++ ": " ++ py_str ptype
          ++ (if truthy pdesc then " — " ++ py_str pdesc else "")).

(** [for pname, pschema in props.items(): params.append(...)] *)
Fixpoint params_loop (items : list (string * json)) (params : list string)
  : result (list string) :=
  match items with
  | [] => Return params
  | (pname, pschema) :: rest =>
      l <- param_line pname pschema ;;
      params_loop rest (append params l)
  end.

(** One turn of the outer loop: [lines] before, [lines] after. *)
Definition tool_step (lines : list string) (tool : json)
  : result (list string) :=
  name <- py_getitem tool "name" ;;
  desc <- py_get tool "description" (JStr "") ;;
  schema <- py_get tool "inputSchema" (JObj []) ;;
  props <- py_get schema "properties" (JObj []) ;;
  items <- py_items props ;;
  params <- params_loop items [] ;;
  let lines := append lines ("  " ++ py_str name ++ ": " ++ py_str desc) in
  Return (match params with
          | [] => lines
          | _ :: _ => extend lines params
          end).

(** [for tool in tools: ...] *)
Fixpoint tools_loop (tools : list json) (lines : list string)
  : result (list string) :=
  match tools with
  | [] => Return lines
  | tool :: rest =>
      lines' <- tool_step lines tool ;;
      tools_loop rest lines'
  end.

Definition no_tools_line : string := "No tools found on this server.".
Definition tools_header : string := "Available tools:" ++ nl.

Definition _format_tools (res : json) : result string :=
  tools <- py_get res "tools" (JArr []) ;;
  if negb (truthy tools) then Return no_tools_line
  else
    seq <- py_iter tools ;;
    lines <- tools_loop seq [] ;;
    Return (tools_header ++ join nl lines).

(** One turn of the loop of [_format_call_result]: what is appended to
    [parts].  [item["text"]] is appended as it is, whatever its type. *)
Definition content_part (item : json) : result json :=
  ty <- py_get item "type" JNull ;;
  if eq_str ty "text" then py_getitem item "text"
  else Return (JStr (json_dumps item)).

Fixpoint content_loop (content : list json) (parts : list json)
  : result (list json) :=
  match content with
  | [] => Return parts
  | item :: rest =>
      p <- content_part item ;;
      content_loop rest (append parts p)
  end.

Definition empty_response_line : string := "(empty response)".

Definition _format_call_result (res : json) : result string :=
  content <- py_get res "content" (JArr []) ;;
  seq <- py_iter content ;;
  parts <- content_loop seq [] ;;
  match parts with
  | [] => Return empty_response_line
  | _ :: _ => py_join nl parts
  end.

(* ===================================================================== *)
(** ** Framing helpers (server.py, lines 534-548) *)
(* ===================================================================== *)

Local Open Scope io_scope.

Definition jsonrpc_request (req_id : Z) (method : string) (params : json)
  : json :=
  JObj [("jsonrpc", JStr "2.0"); ("id", JInt req_id);
        ("method", JStr method); ("params", params)].

Definition jsonrpc_notification (method : string) : json :=
  JObj [("jsonrpc", JStr "2.0"); ("method", JStr method)].

Definition _send_jsonrpc (proc : nat) (req_id : Z) (method : string)
  (params : json) : M unit :=
  let msg := json_dumps (jsonrpc_request req_id method params) ++ nl in
  stdin_write proc msg.

Definition _send_notification (proc : nat) (method : string) : M unit :=
  let msg := json_dumps (jsonrpc_notification method) ++ nl in
  stdin_write proc msg.

(** [json.loads(text)] as a step of the program. *)
Definition loads (text : string) : M json :=
  match json_loads text with
  | Some v => ret v
  | None => raise JSONDecodeError
  end.

Definition _read_jsonrpc (proc : nat) (timeout : Z) : M json :=
  line <- stdout_readline proc timeout ;;
  loads line.

(* ===================================================================== *)
(** ** Process transport (server.py, lines 467-505) *)
(* ===================================================================== *)

Definition initialize_params : json :=
  JObj [("protocolVersion", JStr "2024-11-05");
        ("capabilities", JObj []);
        ("clientInfo", JObj [("name", JStr "mcp-factory");
                             ("version", JStr "1.0.0")])].

(** [[server["command"]] + server.get("args", [])] *)
Definition command_line (server : json) : result (list json) :=
  (command <- py_getitem server "command" ;;
   args <- py_get server "args" (JArr []) ;;
   match args with
   | JArr l => Return (command :: l)
   | _ => Raise TypeError
   end)%result.

(** [{**os.environ, **server.get("env", {})}] *)
Definition child_env (ambient : list (string * string)) (server : json)
  : result (list (string * json)) :=
  (extra <- py_get server "env" (JObj []) ;;
   match extra with
   | JObj d => Return (dict_merge (map (fun kv => (fst kv, JStr (snd kv)))
                                       ambient) d)
   | _ => Raise TypeError
   end)%result.

(** The [try] block of [_stdio_request]. *)
Definition stdio_exchange (proc : nat) (method : string) (params : json)
  (formatter : json -> result string) : M string :=
  _send_jsonrpc proc 1 "initialize" initialize_params ;;
  _ <- _read_jsonrpc proc 10 ;;
  _send_notification proc "notifications/initialized" ;;
  _send_jsonrpc proc 2 method params ;;
  resp <- _read_jsonrpc proc 30 ;;
  has_error <- lift (py_in "error" resp) ;;
  if has_error : bool then
    err <- lift (py_getitem resp "error") ;;
    ret ("Server error: " ++ py_str err)
  else
    res <- lift (py_get resp "result" (JObj [])) ;;
    lift (formatter res).

(** The [finally] block of [_stdio_request]. *)
Definition stdio_cleanup (proc : nat) : M unit :=
  terminate proc ;;
  try_except (wait_for_exit proc 5)
    (fun e => match e with
              | TimeoutError => kill proc
              | _ => raise e
              end).

Definition _stdio_request (server : json) (method : string) (params : json)
  (formatter : json -> result string) : M string :=
  cmd <- lift (command_line server) ;;
  env <- (fun w => lift (child_env (environ w) server) w) ;;
  proc <- create_subprocess_exec cmd env ;;
  try_finally (stdio_exchange proc method params formatter)
              (stdio_cleanup proc).

(* ===================================================================== *)
(** ** Remote transport (server.py, lines 508-531) *)
(* ===================================================================== *)

(** [server["url"].rstrip("/")] *)
Definition endpoint (server : json) : result string :=
  (url <- py_getitem server "url" ;;
   match url with
   | JStr s => Return (rstrip_slash s)
   | _ => Raise AttributeError
   end)%result.

(** The [headers] dict after the [if] of lines 517-518. *)
Definition auth_headers (server : json) : result (list (string * string)) :=
  (env <- py_get server "env" (JObj []) ;;
   token <- py_get env "AUTH_TOKEN" JNull ;;
   if truthy token then
     env' <- py_getitem server "env" ;;
     token' <- py_getitem env' "AUTH_TOKEN" ;;
     Return [("Authorization", "Bearer " ++ py_str token')]
   else Return [])%result.

Definition httpx_missing_line : string :=
  "Error: httpx not installed. Run: pip install httpx".

Definition _sse_request (server : json) (method : string) (params : json)
  (formatter : json -> result string) : M string :=
  installed <- (fun w => (Return (httpx_installed w), w)) ;;
  if installed : bool then
    url <- lift (endpoint server) ;;
    headers <- lift (auth_headers server) ;;
    body <- http_post url (jsonrpc_request 1 method params) headers ;;
    data <- loads body ;;
    has_error <- lift (py_in "error" data) ;;
    if has_error : bool then
      err <- lift (py_getitem data "error") ;;
      ret ("Server error: " ++ py_str err)
    else
      res <- lift (py_get data "result" (JObj [])) ;;
      lift (formatter res)
  else ret httpx_missing_line.

(* ===================================================================== *)
(** ** Registry access and the facade (server.py, lines 50-54, 160-215) *)
(* ===================================================================== *)

Definition _load_registry : M json :=
  _ensure_dirs ;;
  file <- (fun w => (Return (registry_file w), w)) ;;
  match file with
  | Some text => loads text
  | None => ret (JObj [("servers", JObj [])])
  end.

(** The [try] block of [remote_discover]. *)
Definition discover_try (server : json) : M string :=
  transport <- lift (py_getitem server "transport") ;;
  if eq_str transport "stdio" then
    _stdio_request server "tools/list" (JObj []) _format_tools
  else
    transport' <- lift (py_getitem server "transport") ;;
    if eq_str transport' "sse" then
      _sse_request server "tools/list" (JObj []) _format_tools
    else
      transport'' <- lift (py_getitem server "transport") ;;
      ret ("Unknown transport: " ++ py_str transport'').

(** Its two [except] clauses. *)
Definition discover_except (alias : string) (e : exn) : M string :=
  match e with
  | TimeoutError =>
      ret ("Timeout connecting to '" ++ alias ++ "'. Is the server running?")
  | _ =>
      ret ("Error discovering tools on '" ++ alias ++ "': " ++ exn_str e)
  end.

Definition remote_discover (alias : string) : M string :=
  registry <- _load_registry ;;
  servers <- lift (py_getitem registry "servers") ;;
  known <- lift (py_in alias servers) ;;
  if negb known then
    ret ("Server '" ++ alias
         ++ "' not found. Run registry_list() to see available servers.")
  else
    servers' <- lift (py_getitem registry "servers") ;;
    server <- lift (py_getitem servers' alias) ;;
    try_except (discover_try server) (discover_except alias).

(** The [try] block of [remote_call]. *)
Definition call_try (server : json) (tool_name : string) (args_dict : json)
  : M string :=
  let params := JObj [("name", JStr tool_name); ("arguments", args_dict)] in
  transport <- lift (py_getitem server "transport") ;;
  if eq_str transport "stdio" then
    _stdio_request server "tools/call" params _format_call_result
  else
    transport' <- lift (py_getitem server "transport") ;;
    if eq_str transport' "sse" then
      _sse_request server "tools/call" params _format_call_result
    else
      transport'' <- lift (py_getitem server "transport") ;;
      ret ("Unknown transport: " ++ py_str transport'').

(** Its two [except] clauses. *)
Definition call_except (alias tool_name : string) (e : exn) : M string :=
  match e with
  | TimeoutError =>
      ret ("Timeout calling '" ++ tool_name ++ "' on '" ++ alias ++ "'.")
  | _ =>
      ret ("Error calling '" ++ tool_name ++ "' on '" ++ alias ++ "': "
           ++ exn_str e)
  end.

Definition remote_call (alias tool_name arguments : string) : M string :=
  registry <- _load_registry ;;
  servers <- lift (py_getitem registry "servers") ;;
  known <- lift (py_in alias servers) ;;
  if negb known then
    ret ("Server '" ++ alias ++ "' not found.")
  else
    servers' <- lift (py_getitem registry "servers") ;;
    server <- lift (py_getitem servers' alias) ;;
    args_dict <- loads arguments ;;
    _audit "remote_call"
           ("alias=" ++ alias ++ " tool=" ++ tool_name
            ++ " args=" ++ arguments) ;;
    try_except (call_try server tool_name args_dict)
               (call_except alias tool_name).

End Proxy.

(* ===================================================================== *)
(** ** The registry store (server.py, lines 50-66, 74-152, 445-459) *)
(* ===================================================================== *)

(** [json.dumps(v, indent=2)], the pretty printer [_save_registry] writes
    the registry file with; like the functions of [Runtime] it belongs to
    the interpreter. *)
Class Printer : Type := {
  json_dumps_indent : json -> string
}.

(** [del d[k]] on a dict. *)
Definition dict_del (k : string) (d : list (string * json))
  : list (string * json) :=
  filter (fun kv => negb (String.eqb k (fst kv))) d.

(** [v[k] = x] with a string key. *)
Definition py_setitem (v : json) (k : string) (x : json) : result json :=
  match v with
  | JObj d => Return (JObj (dict_set k x d))
  | _ => Raise TypeError
  end.

(** [del v[k]] with a string key. *)
Definition py_delitem (v : json) (k : string) : result json :=
  match v with
  | JObj d => if has_key k d then Return (JObj (dict_del k d))
              else Raise (KeyError k)
  | _ => Raise TypeError
  end.

(** The number of code points of a string held as UTF-8: the bytes that
    are not continuation bytes. *)
Fixpoint utf8_length (s : string) : nat :=
  match s with
  | EmptyString => 0
  | String c s' =>
      let n := nat_of_ascii c in
      (if Nat.leb 128 n && Nat.ltb n 192 then 0 else 1) + utf8_length s'
  end.

(** [len(v)] *)
Definition py_len (v : json) : result Z :=
  match v with
  | JObj d => Return (Z.of_nat (List.length d))
  | JArr l => Return (Z.of_nat (List.length l))
  | JStr s => Return (Z.of_nat (utf8_length s))
  | _ => Raise TypeError
  end.

(** An optional string argument that is true in Python's sense: given,
    and not empty. *)
Definition given (o : option string) : option string :=
  match o with
  | Some s => if String.eqb s EmptyString then None else Some s
  | None => None
  end.

(** [REGISTRY_FILE.write_text(text)] *)
Definition write_registry_file (text : string) : M unit :=
  fun w =>
    (Return tt,
     mkWorld (Some text) (environ w) (spawn_script w) (exits_on_sigterm w)
             (httpx_installed w) (http_script w) (stdin_script w)
             (stdout_script w) (next_pid w) (running w) (trace w)).

Section Registry.

Context {rt : Runtime} {pp : Printer}.

Local Open Scope io_scope.

Definition _save_registry (registry : json) : M unit :=
  _ensure_dirs ;;
  write_registry_file (json_dumps_indent registry).

(** The dict [entry] of [registry_add] (lines 104-117); [now] is what the
    clock reads when it is built. *)
Definition registry_entry (now transport description : string)
  (command args url env : option string) : M (list (string * json)) :=
  let entry := [("transport", JStr transport);
                ("description", JStr description);
                ("managed", JBool false);
                ("created", JStr now)] in
  let entry := match given command with
               | Some c => dict_set "command" (JStr c) entry
               | None => entry
               end in
  entry <- match given args with
           | Some a => v <- loads a ;; ret (dict_set "args" v entry)
           | None => ret entry
           end ;;
  let entry := match given url with
               | Some u => dict_set "url" (JStr u) entry
               | None => entry
               end in
  match given env with
  | Some e => v <- loads e ;; ret (dict_set "env" v entry)
  | None => ret entry
  end.

(** [registry["servers"][alias] = entry]: the nested dict is changed in
    place, so the change is seen through [registry]. *)
Definition store_entry (registry : json) (alias : string) (entry : json)
  : result json :=
  (servers <- py_getitem registry "servers" ;;
   servers' <- py_setitem servers alias entry ;;
   py_setitem registry "servers" servers')%result.

(** [del registry["servers"][alias]] *)
Definition drop_entry (registry : json) (alias : string) : result json :=
  (servers <- py_getitem registry "servers" ;;
   servers' <- py_delitem servers alias ;;
   py_setitem registry "servers" servers')%result.

Definition registry_add (now : string) (alias transport : string)
  (command args url env : option string) (description : string)
  : M string :=
  if negb (String.eqb transport "stdio" || String.eqb transport "sse") then
    ret "Error: transport must be 'stdio' or 'sse'."
  else if String.eqb transport "stdio"
          && match given command with Some _ => false | None => true end then
    ret "Error: stdio transport requires 'command'."
  else if String.eqb transport "sse"
          && match given url with Some _ => false | None => true end then
    ret "Error: sse transport requires 'url'."
  else
    registry <- _load_registry ;;
    entry <- registry_entry now transport description command args url env ;;
    registry' <- lift (store_entry registry alias (JObj entry)) ;;
    _save_registry registry' ;;
    _audit "registry_add" ("alias=" ++ alias ++ " transport=" ++ transport) ;;
    ret ("✓ Registered '" ++ alias ++ "' (" ++ transport
         ++ "). Use remote_discover('" ++ alias ++ "') to see its tools.").

(** The body of the loop of [registry_list]: the line of one server. *)
Definition registry_line (alias : string) (info : json) : result string :=
  (managed <- py_get info "managed" JNull ;;
   let kind := if truthy managed then "managed" else "external" in
   transport <- py_getitem info "transport" ;;
   desc <- py_get info "description" (JStr EmptyString) ;;
   Return ("  " ++ alias ++ " | " ++ py_str transport ++ " | " ++ kind
           ++ " | " ++ py_str desc))%result.

Fixpoint registry_lines (items : list (string * json)) (lines : list string)
  : result (list string) :=
  match items with
  | [] => Return lines
  | (alias, info) :: rest =>
      (l <- registry_line alias info ;;
       registry_lines rest (append lines l))%result
  end.

Definition no_servers_line : string :=
  "No servers registered. Use registry_add() or scaffold_server() to add one.".

Definition registry_list : M string :=
  registry <- _load_registry ;;
  servers <- lift (py_getitem registry "servers") ;;
  if negb (truthy servers) then ret no_servers_line
  else
    servers' <- lift (py_getitem registry "servers") ;;
    items <- lift (py_items servers') ;;
    lines <- lift (registry_lines items []) ;;
    ret ("Registered servers:" ++ nl ++ join nl lines).

Definition registry_remove (alias : string) : M string :=
  registry <- _load_registry ;;
  servers <- lift (py_getitem registry "servers") ;;
  known <- lift (py_in alias servers) ;;
  if negb known then
    ret ("Server '" ++ alias ++ "' not found in registry.")
  else
    registry' <- lift (drop_entry registry alias) ;;
    _save_registry registry' ;;
    _audit "registry_remove" ("alias=" ++ alias) ;;
    ret ("✓ Removed '" ++ alias ++ "' from registry.").

(** The body of the loop of [server_status]. *)
Definition status_line (key : string) (val : json) : result string :=
  if String.eqb key "env" then
    (n <- py_len val ;;
     Return ("  env: [redacted, " ++ py_str (JInt n) ++ " vars]"))%result
  else Return ("  " ++ key ++ ": " ++ py_str val).

Fixpoint status_lines (items : list (string * json)) (lines : list string)
  : result (list string) :=
  match items with
  | [] => Return lines
  | (key, val) :: rest =>
      (l <- status_line key val ;;
       status_lines rest (append lines l))%result
  end.

Definition server_status (name : string) : M string :=
  registry <- _load_registry ;;
  servers <- lift (py_getitem registry "servers") ;;
  known <- lift (py_in name servers) ;;
  if negb known then ret ("Server '" ++ name ++ "' not found.")
  else
    servers' <- lift (py_getitem registry "servers") ;;
    server <- lift (py_getitem servers' name) ;;
    items <- lift (py_items server) ;;
    lines <- lift (status_lines items ["Server: " ++ name]) ;;
    ret (join nl lines).

End Registry.

(* ===================================================================== *)
(** ** A reference runtime *)
(* ===================================================================== *)

(** A runtime to run the model on concrete inputs.  The general statements
    below hold for every [Runtime]; this one is used where a frame or a
    registry file is given as text.  [ref_loads] decodes JSON whose numbers
    are integers and whose strings have no [\u] escape, and refuses the
    rest; [ref_repr] and [ref_dumps] print any value, exactly when its
    strings are printable ASCII. *)
Module Reference.

Definition dquote : ascii := ascii_of_nat 34.
Definition squote : ascii := ascii_of_nat 39.
Definition bslash : ascii := ascii_of_nat 92.

Definition is_ws (c : ascii) : bool :=
  let n := nat_of_ascii c in
  Nat.eqb n 32 || Nat.eqb n 9 || Nat.eqb n 10 || Nat.eqb n 13.

Fixpoint skip_ws (s : string) : string :=
  match s with
  | String c s' => if is_ws c then skip_ws s' else s
  | EmptyString => s
  end.

Definition digit_of (c : ascii) : option Z :=
  let n := nat_of_ascii c in
  if Nat.leb 48 n && Nat.leb n 57 then Some (Z.of_nat (n - 48)) else None.

(** The digits at the head of [s], read onto [acc]. *)
Fixpoint read_digits (s : string) (acc : Z) : Z * string :=
  match s with
  | String c s' =>
      match digit_of c with
      | Some d => read_digits s' (10 * acc + d)%Z
      | None => (acc, s)
      end
  | EmptyString => (acc, s)
  end.

Definition starts_fraction (s : string) : bool :=
  match s with
  | String c _ => Ascii.eqb c "." || Ascii.eqb c "e" || Ascii.eqb c "E"
  | EmptyString => false
  end.

(** [0] or a digit string without a leading zero, and no fraction or
    exponent after it. *)
Definition read_nat (s : string) : option (Z * string) :=
  match s with
  | String c s' =>
      match digit_of c with
      | Some 0%Z => if starts_fraction s' then None else Some (0%Z, s')
      | Some d =>
          let (n, rest) := read_digits s' d in
          if starts_fraction rest then None else Some (n, rest)
      | None => None
      end
  | EmptyString => None
  end.

(** The body of a string literal, after the opening quote. *)
Fixpoint read_string (s : string) : option (string * string) :=
  match s with
  | EmptyString => None
  | String c s' =>
      if Ascii.eqb c dquote then Some (EmptyString, s')
      else if Nat.ltb (nat_of_ascii c) 32 then None
      else if Ascii.eqb c bslash then
        match s' with
        | String e s'' =>
            let unescaped :=
              if Ascii.eqb e dquote then Some dquote
              else if Ascii.eqb e bslash then Some bslash
              else if Ascii.eqb e "/" then Some "/"%char
              else if Ascii.eqb e "b" then Some (ascii_of_nat 8)
              else if Ascii.eqb e "f" then Some (ascii_of_nat 12)
              else if Ascii.eqb e "n" then Some (ascii_of_nat 10)
              else if Ascii.eqb e "r" then Some (ascii_of_nat 13)
              else if Ascii.eqb e "t" then Some (ascii_of_nat 9)
              else None in
            match unescaped, read_string s'' with
            | Some u, Some (body, rest) => Some (String u body, rest)
            | _, _ => None
            end
        | EmptyString => None
        end
      else
        match read_string s' with
        | Some (body, rest) => Some (String c body, rest)
        | None => None
        end
  end.

Definition strip_prefix (p s : string) : option string :=
  if is_prefix p s then Some (substring (String.length p)
                    (String.length s - String.length p) s)
  else None.

(** [dict(pairs)]: a repeated key keeps its first place and its last
    value. *)
Definition dict_of_pairs (pairs : list (string * json))
  : list (string * json) :=
  dict_merge [] pairs.

Fixpoint read_value (fuel : nat) (s : string) : option (json * string) :=
  match fuel with
  | O => None
  | S fuel' =>
      match skip_ws s with
      | String c rest =>
          if Ascii.eqb c dquote then
            match read_string rest with
            | Some (body, rest') => Some (JStr body, rest')
            | None => None
            end
          else if Ascii.eqb c "[" then
            match skip_ws rest with
            | String "]" rest' => Some (JArr [], rest')
            | _ =>
                match read_items fuel' rest with
                | Some (items, rest') => Some (JArr items, rest')
                | None => None
                end
            end
          else if Ascii.eqb c "{" then
            match skip_ws rest with
            | String "}" rest' => Some (JObj [], rest')
            | _ =>
                match read_members fuel' rest with
                | Some (pairs, rest') =>
                    Some (JObj (dict_of_pairs pairs), rest')
                | None => None
                end
            end
          else if Ascii.eqb c "-" then
            match read_nat rest with
            | Some (n, rest') => Some (JInt (- n), rest')
            | None => None
            end
          else
            match strip_prefix "null" (String c rest),
                  strip_prefix "true" (String c rest),
                  strip_prefix "false" (String c rest) with
            | Some rest', _, _ => Some (JNull, rest')
            | _, Some rest', _ => Some (JBool true, rest')
            | _, _, Some rest' => Some (JBool false, rest')
            | None, None, None =>
                match read_nat (String c rest) with
                | Some (n, rest') => Some (JInt n, rest')
                | None => None
                end
            end
      | EmptyString => None
      end
  end
with read_items (fuel : nat) (s : string) : option (list json * string) :=
  match fuel with
  | O => None
  | S fuel' =>
      match read_value fuel' s with
      | Some (v, rest) =>
          match skip_ws rest with
          | String "," rest' =>
              match read_items fuel' rest' with
              | Some (vs, rest'') => Some (v :: vs, rest'')
              | None => None
              end
          | String "]" rest' => Some ([v], rest')
          | _ => None
          end
      | None => None
      end
  end
with read_members (fuel : nat) (s : string)
  : option (list (string * json) * string) :=
  match fuel with
  | O => None
  | S fuel' =>
      match skip_ws s with
      | String c rest =>
          match (if Ascii.eqb c dquote then read_string rest else None) with
          | Some (key, rest1) =>
              match skip_ws rest1 with
              | String ":" rest2 =>
                  match read_value fuel' rest2 with
                  | Some (v, rest3) =>
                      match skip_ws rest3 with
                      | String "," rest4 =>
                          match read_members fuel' rest4 with
                          | Some (ps, rest5) => Some ((key, v) :: ps, rest5)
                          | None => None
                          end
                      | String "}" rest4 => Some ([(key, v)], rest4)
                      | _ => None
                      end
                  | None => None
                  end
              | _ => None
              end
          | None => None
          end
      | EmptyString => None
      end
  end.

(** The whole text has to be one value, white space around it allowed. *)
Definition ref_loads (text : string) : option json :=
  match read_value (2 * String.length text + 2) text with
  | Some (v, rest) =>
      match skip_ws rest with
      | EmptyString => Some v
      | String _ _ => None
      end
  | None => None
  end.

(** *** Printing *)

Definition hex_digit (n : nat) : ascii :=
  if Nat.ltb n 10 then ascii_of_nat (48 + n) else ascii_of_nat (87 + n).

Definition hex2 (c : ascii) : string :=
  let n := nat_of_ascii c in
  String (hex_digit (n / 16)) (String (hex_digit (n mod 16)) EmptyString).

Fixpoint mem_char (c : ascii) (s : string) : bool :=
  match s with
  | String c' s' => Ascii.eqb c c' || mem_char c s'
  | EmptyString => false
  end.

(** The characters of [repr(s)] between the quotes, [q] being the quote
    chosen. *)
Fixpoint repr_chars (q : ascii) (s : string) : string :=
  match s with
  | EmptyString => EmptyString
  | String c s' =>
      let n := nat_of_ascii c in
      (if Ascii.eqb c bslash then String bslash (String bslash EmptyString)
       else if Ascii.eqb c q then String bslash (String q EmptyString)
       else if Nat.eqb n 10 then String bslash "n"
       else if Nat.eqb n 13 then String bslash "r"
       else if Nat.eqb n 9 then String bslash "t"
       else if Nat.ltb n 32 || Nat.eqb n 127 then
         String bslash (String "x" (hex2 c))
       else String c EmptyString)
      ++ repr_chars q s'
  end.

(** [repr(s)] of a string: single quotes, unless the text has a single
    quote and no double quote. *)
Definition repr_string (s : string) : string :=
  let q := if mem_char squote s && negb (mem_char dquote s)
           then dquote else squote in
  String q (repr_chars q s ++ String q EmptyString).

(** The characters of [json.dumps(s)] between the quotes. *)
Fixpoint dumps_chars (s : string) : string :=
  match s with
  | EmptyString => EmptyString
  | String c s' =>
      let n := nat_of_ascii c in
      (if Ascii.eqb c bslash then String bslash (String bslash EmptyString)
       else if Ascii.eqb c dquote then String bslash (String dquote EmptyString)
       else if Nat.eqb n 10 then String bslash "n"
       else if Nat.eqb n 13 then String bslash "r"
       else if Nat.eqb n 9 then String bslash "t"
       else if Nat.eqb n 8 then String bslash "b"
       else if Nat.eqb n 12 then String bslash "f"
       else if Nat.ltb n 32 || Nat.eqb n 127 then
         String bslash ("u00" ++ hex2 c)
       else String c EmptyString)
      ++ dumps_chars s'
  end.

Definition dumps_string (s : string) : string :=
  String dquote (dumps_chars s ++ String dquote EmptyString).

Definition int_text (n : Z) : string := NilZero.string_of_int (Z.to_int n).

(** [repr(v)] *)
Fixpoint ref_repr (v : json) : string :=
  match v with
  | JNull => "None"
  | JBool true => "True"
  | JBool false => "False"
  | JInt n => int_text n
  | JFloat x => x
  | JStr s => repr_string s
  | JArr items => "[" ++ join ", " (map ref_repr items) ++ "]"
  | JObj fields =>
      "{" ++ join ", " (map (fun kv => repr_string (fst kv) ++ ": "
                                        ++ ref_repr (snd kv)) fields) ++ "}"
  end.

(** [json.dumps(v)] with its default separators. *)
Fixpoint ref_dumps (v : json) : string :=
  match v with
  | JNull => "null"
  | JBool true => "true"
  | JBool false => "false"
  | JInt n => int_text n
  | JFloat x =>
      if String.eqb x "nan" then "NaN"
      else if String.eqb x "inf" then "Infinity"
      else if String.eqb x "-inf" then "-Infinity"
      else x
  | JStr s => dumps_string s
  | JArr items => "[" ++ join ", " (map ref_dumps items) ++ "]"
  | JObj fields =>
      "{" ++ join ", " (map (fun kv => dumps_string (fst kv) ++ ": "
                                        ++ ref_dumps (snd kv)) fields) ++ "}"
  end.

(** [str(e)].  A time-out has no message and a [KeyError] prints the
    [repr] of its key; an exception without a message in the model prints
    as the name of its class. *)
Definition ref_exn_str (e : exn) : string :=
  match e with
  | TimeoutError => EmptyString
  | KeyError k => repr_string k
  | TypeError => "TypeError"
  | AttributeError => "AttributeError"
  | JSONDecodeError => "JSONDecodeError"
  | OSError what => what
  | HTTPError what => what
  end.

Definition runtime : Runtime :=
  {| json_loads := ref_loads;
     json_dumps := ref_dumps;
     py_repr := ref_repr;
     exn_str := ref_exn_str |}.

End Reference.

(* ===================================================================== *)
(** ** A reference pretty printer *)
(* ===================================================================== *)

(** [json.dumps(v, indent=2)] to run the registry store on concrete
    inputs: every member on a line of its own, two more spaces per level,
    [","] between members and [": "] after a key; an empty list and an
    empty dict stay on one line. *)
Module Pretty.

Fixpoint spaces (n : nat) : string :=
  match n with
  | O => EmptyString
  | S n' => String " " (spaces n')
  end.

Fixpoint dumps_at (level : nat) (v : json) : string :=
  match v with
  | JArr [] => "[]"
  | JObj [] => "{}"
  | JArr items =>
      "[" ++ nl
      ++ join ("," ++ nl)
           (map (fun x => spaces (2 * S level) ++ dumps_at (S level) x) items)
      ++ nl ++ spaces (2 * level) ++ "]"
  | JObj fields =>
      "{" ++ nl
      ++ join ("," ++ nl)
           (map (fun kv => spaces (2 * S level)
                           ++ Reference.dumps_string (fst kv) ++ ": "
                           ++ dumps_at (S level) (snd kv)) fields)
      ++ nl ++ spaces (2 * level) ++ "}"
  | _ => Reference.ref_dumps v
  end.

Definition printer : Printer := {| json_dumps_indent := dumps_at 0 |}.

End Pretty.

(* ===================================================================== *)
(** ** Vocabulary of the statements *)
(* ===================================================================== *)

(** What a call leaves alone in the world while it only talks to a child
    over its pipes: the environment's fixed behaviour and the table of
    running processes. *)
Definition stable (w w' : World) : Prop :=
  registry_file w' = registry_file w /\
  environ w' = environ w /\
  spawn_script w' = spawn_script w /\
  exits_on_sigterm w' = exits_on_sigterm w /\
  httpx_installed w' = httpx_installed w /\
  http_script w' = http_script w /\
  next_pid w' = next_pid w /\
  running w' = running w.

(** A step that, from any world, changes nothing but the trace and the
    pipe scripts. *)
Definition quiet {A} (m : M A) : Prop :=
  forall w, stable w (snd (m w)).

Definition is_obj (v : json) : bool :=
  match v with JObj _ => true | _ => false end.

Section Vocabulary.

Context {rt : Runtime}.

(** *** The registry as the proxy reads it *)

(** The [servers] mapping of the registry file: empty when there is no
    file; [None] when the file does not hold a JSON object with an object
    under [servers]. *)
Definition servers_of (w : World) : option (list (string * json)) :=
  match registry_file w with
  | None => Some []
  | Some text =>
      match json_loads text with
      | Some (JObj fields) =>
          match lookup "servers" fields with
          | Some (JObj servers) => Some servers
          | _ => None
          end
      | _ => None
      end
  end.

(** *** A call of the process transport *)

(** [_stdio_request] gets its child started: the command line and the
    environment can be built from the descriptor, and the operating system
    starts the process, as [pid], which leaves the world as [w1]. *)
Definition spawns (server : json) (w : World) (pid : nat) (w1 : World)
  : Prop :=
  exists cmd env,
    command_line server = Return cmd /\
    child_env (environ w) server = Return env /\
    create_subprocess_exec cmd env w = (Return pid, w1).

(** The child takes the first [n] writes on its standard input. *)
Fixpoint writes_ok (n : nat) (script : list (option exn)) : bool :=
  match n, script with
  | O, _ => true
  | S _, [] => true
  | S n', None :: rest => writes_ok n' rest
  | S _, Some _ :: _ => false
  end.

(** The read of the [initialize] response fails with [e]: nothing arrives
    in time, or what arrives does not decode. *)
Definition handshake_fails (w : World) (e : exn) : Prop :=
  ((stdout_script w = [] \/ exists rest, stdout_script w = Silent :: rest)
   /\ e = TimeoutError) \/
  (exists line rest,
      stdout_script w = Line line :: rest /\
      json_loads line = None /\ e = JSONDecodeError).

(** The handshake goes through and the child answers the request with the
    line [reply]: the three writes are taken, and the first line read
    decodes. *)
Definition handshake_done (w : World) (reply : string) : Prop :=
  writes_ok 3 (stdin_script w) = true /\
  exists line value rest,
    stdout_script w = Line line :: Line reply :: rest /\
    json_loads line = Some value.

(** What the proxy writes first. *)
Definition initialize_frame : string :=
  json_dumps (jsonrpc_request 1 "initialize" initialize_params) ++ nl.

(** The two frames that follow a handshake. *)
Definition initialized_frame : string :=
  json_dumps (jsonrpc_notification "notifications/initialized") ++ nl.

Definition request_frame (method : string) (params : json) : string :=
  json_dumps (jsonrpc_request 2 method params) ++ nl.

(** The handshake goes through and the child then answers nothing in
    time. *)
Definition request_times_out (w : World) : Prop :=
  writes_ok 3 (stdin_script w) = true /\
  exists line value,
    json_loads line = Some value /\
    (stdout_script w = [Line line] \/
     exists rest, stdout_script w = Line line :: Silent :: rest).

(** *** A call of the remote transport *)

(** The POST goes out and the endpoint answers with [body]. *)
Definition sse_replies (server : json) (w : World) (body : string) : Prop :=
  httpx_installed w = true /\
  (exists url, endpoint server = Return url) /\
  (exists headers, auth_headers server = Return headers) /\
  http_script w = Return body.

(** The value under [AUTH_TOKEN] in the descriptor's [env], if any. *)
Definition auth_token (server : json) : option json :=
  match server with
  | JObj fields =>
      match lookup "env" fields with
      | Some (JObj env) => lookup "AUTH_TOKEN" env
      | _ => None
      end
  | _ => None
  end.

(** *** What a transport makes of a reply *)

(** The outcome of a call once the reply's text is in hand: the decode
    error, the downstream error as a text, or the formatted result. *)
Definition reply_outcome (formatter : json -> result string)
  (decoded : option json) : result string :=
  match decoded with
  | None => Raise JSONDecodeError
  | Some resp =>
      (has_error <- py_in "error" resp ;;
       if has_error : bool then
         err <- py_getitem resp "error" ;;
         Return ("Server error: " ++ py_str err)
       else
         res <- py_get resp "result" (JObj []) ;;
         formatter res)%result
  end.

(** *** The two result shapes of the specification (section 4.4) *)

(** The parameters a tool descriptor declares: those of
    [inputSchema.properties], none when the schema or its properties are
    left out.  [None] when the descriptor is not of that form. *)
Definition declared_params (tool : list (string * json))
  : option (list (string * json)) :=
  match lookup "inputSchema" tool with
  | None => Some []
  | Some (JObj schema) =>
      match lookup "properties" schema with
      | None => Some []
      | Some (JObj props) =>
          if forallb (fun kv => is_obj (snd kv)) props then Some props
          else None
      | Some _ => None
      end
  | Some _ => None
  end.

(** A tool descriptor: a mapping with a name, an optional description and
    an optional parameter schema. *)
Definition tool_descriptor (tool : json) : bool :=
  match tool with
  | JObj fields =>
      has_key "name" fields &&
      match declared_params fields with Some _ => true | None => false end
  | _ => false
  end.

(** The tool-list shape: a mapping whose [tools] is a sequence of tool
    descriptors. *)
Definition tool_list_shape (res : json) : bool :=
  match res with
  | JObj fields =>
      match lookup "tools" fields with
      | Some (JArr tools) => forallb tool_descriptor tools
      | _ => false
      end
  | _ => false
  end.

(** A content item: a mapping; one of kind ["text"] carries its text, a
    string. *)
Definition content_item (item : json) : bool :=
  match item with
  | JObj fields =>
      match lookup "type" fields with
      | Some ty =>
          if eq_str ty "text" then
            match lookup "text" fields with
            | Some (JStr _) => true
            | _ => false
            end
          else true
      | None => true
      end
  | _ => false
  end.

(** The tool-call shape: a mapping whose [content] is a sequence of
    content items. *)
Definition tool_call_shape (res : json) : bool :=
  match res with
  | JObj fields =>
      match lookup "content" fields with
      | Some (JArr content) => forallb content_item content
      | _ => false
      end
  | _ => false
  end.

(** *** What the formatted text is made of *)

Definition field_or (fields : list (string * json)) (k : string)
  (default : json) : json :=
  match lookup k fields with Some v => v | None => default end.

(** The indented line of one declared parameter: name, type, and the
    description when there is one. *)
Definition param_text (param : string * json) : string :=
  match snd param with
  | JObj schema =>
      "    " ++ fst param ++ ": " ++ py_str (field_or schema "type" (JStr "any"))
      ++ (if truthy (field_or schema "description" (JStr EmptyString))
          then " — " ++ py_str (field_or schema "description"
                                          (JStr EmptyString))
          else EmptyString)
  | _ => EmptyString
  end.

(** The lines of one tool: its own line, name and description, then one
    line per declared parameter. *)
Definition tool_text (tool : json) : list string :=
  match tool with
  | JObj fields =>
      ("  " ++ py_str (field_or fields "name" JNull) ++ ": "
       ++ py_str (field_or fields "description" (JStr EmptyString)))
      :: match declared_params fields with
         | Some params => map param_text params
         | None => []
         end
  | _ => []
  end.

(** What one content item contributes: its literal text when it is of kind
    ["text"], its JSON form otherwise. *)
Definition content_text (item : json) : string :=
  match item with
  | JObj fields =>
      if eq_str (field_or fields "type" JNull) "text" then
        match lookup "text" fields with
        | Some (JStr text) => text
        | _ => EmptyString
        end
      else json_dumps item
  | _ => EmptyString
  end.

End Vocabulary.

(* ===================================================================== *)
(** ** Vocabulary of the statements about the registry store *)
(* ===================================================================== *)

(** What a write of the registry file leaves alone. *)
Definition stable_but_file (w w' : World) : Prop :=
  environ w' = environ w /\
  spawn_script w' = spawn_script w /\
  exits_on_sigterm w' = exits_on_sigterm w /\
  httpx_installed w' = httpx_installed w /\
  http_script w' = http_script w /\
  stdin_script w' = stdin_script w /\
  stdout_script w' = stdout_script w /\
  next_pid w' = next_pid w /\
  running w' = running w.

Section RegistryVocabulary.

Context {rt : Runtime} {pp : Printer}.

(** What [_load_registry] reads: the registry with no server when there
    is no file, what the file decodes to otherwise. *)
Definition registry_of (w : World) : option json :=
  match registry_file w with
  | None => Some (JObj [("servers", JObj [])])
  | Some text => json_loads text
  end.

(** The text [_save_registry] writes for [v] reads back as [v]. *)
Definition round_trips (v : json) : Prop :=
  json_loads (json_dumps_indent v) = Some v.

(** The value of an optional JSON argument of [registry_add]: nothing
    when it is not given, what it decodes to when it is; [None] when it
    does not decode. *)
Definition decoded (o : option string) : option (option json) :=
  match given o with
  | None => Some None
  | Some text =>
      match json_loads text with
      | Some v => Some (Some v)
      | None => None
      end
  end.

(** The data-model invariant on what [registry_add] is asked to store: a
    process descriptor comes with a command, a remote one with a url. *)
Definition is_given (o : option string) : bool :=
  match given o with Some _ => true | None => false end.

Definition invariant_ok (transport : string) (command url : option string)
  : bool :=
  (String.eqb transport "stdio" && is_given command)
  || (String.eqb transport "sse" && is_given url).

(** What the registry answers for an alias: the interface the proxy reads
    it through. *)
Definition resolve (w : World) (alias : string) : option json :=
  match servers_of w with
  | Some servers => lookup alias servers
  | None => None
  end.

(** The same invariant on a stored descriptor. *)
Definition descriptor_ok (descriptor : json) : bool :=
  match descriptor with
  | JObj fields =>
      match lookup "transport" fields with
      | Some (JStr transport) =>
          if String.eqb transport "stdio" then
            match lookup "command" fields with
            | Some (JStr c) => negb (String.eqb c EmptyString)
            | _ => false
            end
          else if String.eqb transport "sse" then
            match lookup "url" fields with
            | Some (JStr u) => negb (String.eqb u EmptyString)
            | _ => false
            end
          else false
      | _ => false
      end
  | _ => false
  end.

(** The optional fields of a descriptor, as [registry_add] was given
    them. *)
Definition optional_field (k : string) (v : option json)
  : list (string * json) :=
  match v with
  | Some x => [(k, x)]
  | None => []
  end.

(** The descriptor [registry_add] stores, from its arguments and the
    values its [args] and [env] decode to. *)
Definition descriptor_of (now transport description : string)
  (command : option string) (args_value : option json)
  (url : option string) (env_value : option json) : json :=
  JObj ([("transport", JStr transport);
         ("description", JStr description);
         ("managed", JBool false);
         ("created", JStr now)]
        ++ optional_field "command" (option_map JStr (given command))
        ++ optional_field "args" args_value
        ++ optional_field "url" (option_map JStr (given url))
        ++ optional_field "env" env_value)%list.

(** What [registry_add] and [registry_remove] answer when they are
    done. *)
Definition added_text (alias transport : string) : string :=
  "✓ Registered '" ++ alias ++ "' (" ++ transport
  ++ "). Use remote_discover('" ++ alias ++ "') to see its tools.".

Definition removed_text (alias : string) : string :=
  "✓ Removed '" ++ alias ++ "' from registry.".

(** The registry [fields] with [servers] as its servers. *)
Definition with_servers (fields servers : list (string * json)) : json :=
  JObj (dict_set "servers" (JObj servers) fields).

(** The line of [registry_list] for a descriptor that is a mapping with
    a transport. *)
Definition listing (item : string * json) : string :=
  match snd item with
  | JObj fields =>
      "  " ++ fst item ++ " | " ++ py_str (field_or fields "transport" JNull)
      ++ " | " ++ (if truthy (field_or fields "managed" JNull)
                   then "managed" else "external")
      ++ " | " ++ py_str (field_or fields "description" (JStr EmptyString))
  | _ => EmptyString
  end.

Definition listable (item : string * json) : bool :=
  match snd item with
  | JObj fields => has_key "transport" fields
  | _ => false
  end.

(** Two descriptors that differ at most in what their [env] entries hold,
    and not in how many variables these hold. *)
Inductive same_but_env : list (string * json) -> list (string * json) -> Prop :=
| same_nil : same_but_env [] []
| same_field k v d1 d2 :
    same_but_env d1 d2 -> same_but_env ((k, v) :: d1) ((k, v) :: d2)
| same_env v1 v2 d1 d2 :
    py_len v1 = py_len v2 ->
    same_but_env d1 d2 ->
    same_but_env (("env", v1) :: d1) (("env", v2) :: d2).

End RegistryVocabulary.

(* ===================================================================== *)
(** ** Vocabulary of the statements about traces *)
(* ===================================================================== *)

(** The process an event is about, if it is about one that runs. *)
Definition event_pid (ev : Event) : option nat :=
  match ev with
  | ESend p _ | ERecv p _ | ETerminate p | EWait p _ | EKill p => Some p
  | _ => None
  end.

(** An event on the process [pid]: a write to it, a read from it, a
    signal or a wait. *)
Definition child_event (pid : nat) (ev : Event) : bool :=
  match event_pid ev with
  | Some p => Nat.eqb p pid
  | None => false
  end.

Definition is_audit (ev : Event) : bool :=
  match ev with EAudit _ _ => true | _ => false end.

Definition is_spawn (ev : Event) : bool :=
  match ev with ESpawn _ _ => true | _ => false end.

Definition is_post (ev : Event) : bool :=
  match ev with EPost _ _ _ => true | _ => false end.

(** What a transport may do when it starts in a world where the next
    process would be [pid]: spawn, post, and deal with the process
    [pid]. *)
Definition transport_event (pid : nat) (ev : Event) : bool :=
  is_spawn ev || is_post ev || child_event pid ev.

(** From any world, [m] only adds events to the trace, and the events it
    adds all pass [ok]. *)
Definition emits {A} (ok : Event -> bool) (m : M A) : Prop :=
  forall w,
    exists evs,
      trace (snd (m w)) = (trace w ++ evs)%list /\ forallb ok evs = true.

(** Either transport, from a world where the next process would be
    [next_pid w]. *)
Definition transport_run (w w' : World) : Prop :=
  (exists evs,
      trace w' = (trace w ++ evs)%list /\
      forallb (transport_event (next_pid w)) evs = true) /\
  (forall p, In p (running w') -> In p (running w)).

(** The world in which the [try] block of [remote_call] starts: the
    registry's directories were made sure of twice, and the call was
    written to the audit log. *)
Definition audited (alias tool_name arguments : string) (w : World) : World :=
  log (EAudit "remote_call"
              ("alias=" ++ alias ++ " tool=" ++ tool_name
               ++ " args=" ++ arguments))
      (log EMkdirs (log EMkdirs w)).

(** The arguments and the extra environment a stored descriptor gives the
    process transport: those of its [args] and [env] when they are a list
    and a mapping, none when they were not given. *)
Definition arg_list (args_value : option json) : option (list json) :=
  match args_value with
  | None => Some []
  | Some (JArr l) => Some l
  | Some _ => None
  end.

Definition env_dict (env_value : option json)
  : option (list (string * json)) :=
  match env_value with
  | None => Some []
  | Some (JObj d) => Some d
  | Some _ => None
  end.

(** [os.environ] as a dict of Python strings. *)
Definition ambient_env (ambient : list (string * string))
  : list (string * json) :=
  map (fun kv => (fst kv, JStr (snd kv))) ambient.

Definition str_values (d : list (string * json)) : bool :=
  forallb (fun kv => is_str (snd kv)) d.

(** What the registry store may do: make sure of its directories and
    write to the audit log. *)
Definition store_event (ev : Event) : bool :=
  match ev with
  | EMkdirs | EAudit _ _ => true
  | _ => false
  end.

(** A run of [n] slashes, and whether a string ends with the character
    [c]. *)
Fixpoint slashes (n : nat) : string :=
  match n with
  | O => EmptyString
  | S n' => String "/" (slashes n')
  end.

Fixpoint ends_with (c : ascii) (s : string) : bool :=
  match s with
  | EmptyString => false
  | String c' s' =>
      match s' with
      | EmptyString => Ascii.eqb c c'
      | String _ _ => ends_with c s'
      end
  end.

(* ===================================================================== *)
(** ** Sample data *)
(* ===================================================================== *)

(** Concrete descriptors, frames and worlds, run with the reference
    runtime.  JSON text is written with ['] where it has a double quote;
    [dq] puts the double quotes back. *)
Module Samples.

Fixpoint dq (s : string) : string :=
  match s with
  | EmptyString => EmptyString
  | String c s' =>
      String (if Ascii.eqb c Reference.squote then Reference.dquote else c)
             (dq s')
  end.

Definition with_registry (text : option string) (w : World) : World :=
  mkWorld text (environ w) (spawn_script w) (exits_on_sigterm w)
          (httpx_installed w) (http_script w) (stdin_script w)
          (stdout_script w) (next_pid w) (running w) (trace w).

Definition with_spawn (e : option exn) (w : World) : World :=
  mkWorld (registry_file w) (environ w) e (exits_on_sigterm w)
          (httpx_installed w) (http_script w) (stdin_script w)
          (stdout_script w) (next_pid w) (running w) (trace w).

Definition with_exit (b : bool) (w : World) : World :=
  mkWorld (registry_file w) (environ w) (spawn_script w) b
          (httpx_installed w) (http_script w) (stdin_script w)
          (stdout_script w) (next_pid w) (running w) (trace w).

Definition with_http (r : result string) (w : World) : World :=
  mkWorld (registry_file w) (environ w) (spawn_script w) (exits_on_sigterm w)
          (httpx_installed w) r (stdin_script w)
          (stdout_script w) (next_pid w) (running w) (trace w).

(** Two servers: a child process and an HTTP endpoint with a token. *)
Definition registry_text : string :=
  dq "{'servers': {'echo': {'transport': 'stdio', 'command': 'python', 'args': ['echo.py'], 'env': {'MODE': 'test'}}, 'web': {'transport': 'sse', 'url': 'http://localhost:3001/mcp/', 'env': {'AUTH_TOKEN': 'secret'}}}}".

Definition echo_server : json :=
  JObj [("transport", JStr "stdio"); ("command", JStr "python");
        ("args", JArr [JStr "echo.py"]); ("env", JObj [("MODE", JStr "test")])].

Definition web_server : json :=
  JObj [("transport", JStr "sse"); ("url", JStr "http://localhost:3001/mcp/");
        ("env", JObj [("AUTH_TOKEN", JStr "secret")])].

(** A quiet machine: process 100 is someone else's, the child will get
    101; the child answers nothing unless a script says so, and exits when
    asked to. *)
Definition world0 : World :=
  mkWorld (Some registry_text) [("PATH", "/usr/bin")] None true true
          (Raise (HTTPError "connection refused")) [] [] 101 [100] [].

Definition init_reply : string :=
  dq "{'jsonrpc': '2.0', 'id': 1, 'result': {'protocolVersion': '2024-11-05', 'capabilities': {}}}" ++ nl.

(** A [tools/list] reply with two tools that declare parameters. *)
Definition tools_reply : string :=
  dq "{'jsonrpc': '2.0', 'id': 2, 'result': {'tools': [{'name': 'search', 'description': 'Search the index', 'inputSchema': {'type': 'object', 'properties': {'query': {'type': 'string', 'description': 'What to look for'}, 'limit': {'type': 'integer'}}}}, {'name': 'fetch', 'description': 'Fetch a page', 'inputSchema': {'properties': {'url': {'description': 'Address'}}}}]}}" ++ nl.

Definition two_tools : list json :=
  [JObj [("name", JStr "search"); ("description", JStr "Search the index");
         ("inputSchema",
          JObj [("type", JStr "object");
                ("properties",
                 JObj [("query", JObj [("type", JStr "string");
                                       ("description",
                                        JStr "What to look for")]);
                       ("limit", JObj [("type", JStr "integer")])])])];
   JObj [("name", JStr "fetch"); ("description", JStr "Fetch a page");
         ("inputSchema",
          JObj [("properties",
                 JObj [("url", JObj [("description", JStr "Address")])])])]].

Definition two_tools_text : string :=
  "Available tools:" ++ nl
  ++ "  search: Search the index" ++ nl
  ++ "    query: string — What to look for" ++ nl
  ++ "    limit: integer" ++ nl
  ++ "  fetch: Fetch a page" ++ nl
  ++ "    url: any — Address".

(** A [tools/call] result with a text item and an image item. *)
Definition mixed_content : list json :=
  [JObj [("type", JStr "text"); ("text", JStr "42 results")];
   JObj [("type", JStr "image"); ("data", JStr "AAAA")]].

Definition mixed_content_text : string :=
  "42 results" ++ nl ++ dq "{'type': 'image', 'data': 'AAAA'}".

Definition empty_tools_reply : string :=
  dq "{'jsonrpc': '2.0', 'id': 2, 'result': {'tools': []}}" ++ nl.

(** A reply with neither [result] nor [error]. *)
Definition bare_reply : string := dq "{'jsonrpc': '2.0', 'id': 2}" ++ nl.

(** The child that never answers and ignores the request to terminate. *)
Definition deaf_child : World := with_exit false world0.

(** The child that answers the handshake and then nothing. *)
Definition stalling_child : World := set_stdout [Line init_reply] world0.

(** The child that answers the handshake with something that is not
    JSON. *)
Definition babbling_child : World :=
  set_stdout [Line ("Starting server..." ++ nl)] world0.

Definition child_replying (reply : string) : World :=
  set_stdout [Line init_reply; Line reply] world0.

(** What the proxy has written to the child by the end of a full
    exchange of [tools/list]. *)
Definition initialize_text : string :=
  dq "{'jsonrpc': '2.0', 'id': 1, 'method': 'initialize', 'params': {'protocolVersion': '2024-11-05', 'capabilities': {}, 'clientInfo': {'name': 'mcp-factory', 'version': '1.0.0'}}}" ++ nl.

Definition echo_cmd : list json := [JStr "python"; JStr "echo.py"].

Definition echo_env : list (string * json) :=
  [("PATH", JStr "/usr/bin"); ("MODE", JStr "test")].

(** A registry with descriptors that break the invariant of the data
    model: an empty command, an empty url, no command, no url. *)
Definition broken_registry_text : string :=
  dq "{'servers': {'blank': {'transport': 'stdio', 'command': ''}, 'nowhere': {'transport': 'sse', 'url': ''}, 'nocmd': {'transport': 'stdio'}, 'nourl': {'transport': 'sse'}}}".

Definition broken_world : World :=
  with_http (Raise (HTTPError "Request URL is missing an 'http://' or 'https://' protocol."))
    (with_spawn (Some (OSError "[Errno 2] No such file or directory: ''"))
       (with_registry (Some broken_registry_text) world0)).

(** A registry whose endpoint carries an empty token. *)
Definition blank_token_registry_text : string :=
  dq "{'servers': {'web': {'transport': 'sse', 'url': 'http://localhost:3001/mcp', 'env': {'AUTH_TOKEN': ''}}}}".

Definition blank_token_server : json :=
  JObj [("transport", JStr "sse"); ("url", JStr "http://localhost:3001/mcp");
        ("env", JObj [("AUTH_TOKEN", JStr EmptyString)])].

(** A downstream error reply. *)
Definition error_reply : string :=
  dq "{'jsonrpc': '2.0', 'id': 2, 'error': {'code': -32601, 'message': 'Method not found'}}" ++ nl.

Definition error_payload : json :=
  JObj [("code", JInt (-32601)); ("message", JStr "Method not found")].

(** A reply that is not JSON. *)
Definition garbled_reply : string := "Traceback (most recent call last):" ++ nl.

Definition sample_servers : list (string * json) :=
  [("echo", echo_server); ("web", web_server)].

Definition broken_servers : list (string * json) :=
  [("blank", JObj [("transport", JStr "stdio"); ("command", JStr EmptyString)]);
   ("nowhere", JObj [("transport", JStr "sse"); ("url", JStr EmptyString)]);
   ("nocmd", JObj [("transport", JStr "stdio")]);
   ("nourl", JObj [("transport", JStr "sse")])].

(** The world once the child of [echo_server] has been started from
    [w]. *)
Definition echo_started (w : World) : World :=
  start_child (log (ESpawn echo_cmd echo_env) w).

Definition list_request : json :=
  jsonrpc_request 1 "tools/list" (JObj []).

(** The runtime the samples run with. *)
Definition R : Runtime := Reference.runtime.

End Samples.

(* ===================================================================== *)
(** ** Sample data for the registry store *)
(* ===================================================================== *)

Module RegistrySamples.

Import Samples.

(** The arguments of a [registry_add] of a process server. *)
Definition stamp : string := "2026-01-01T00:00:00+00:00".

Definition files_args : string := dq "['server.js', '--root']".

Definition files_env : string := dq "{'ROOT': '/srv'}".

Definition files_descriptor : json :=
  JObj [("transport", JStr "stdio"); ("description", JStr "File server");
        ("managed", JBool false); ("created", JStr stamp);
        ("command", JStr "node");
        ("args", JArr [JStr "server.js"; JStr "--root"]);
        ("env", JObj [("ROOT", JStr "/srv")])].

(** The registry of [world0], decoded. *)
Definition sample_registry : list (string * json) :=
  [("servers", JObj [("echo", echo_server); ("web", web_server)])].

(** The registry of [world0] with another value in the variable of
    [echo]. *)
Definition echo_fields : list (string * json) :=
  [("transport", JStr "stdio"); ("command", JStr "python");
   ("args", JArr [JStr "echo.py"]); ("env", JObj [("MODE", JStr "test")])].

Definition echo_prod_fields : list (string * json) :=
  [("transport", JStr "stdio"); ("command", JStr "python");
   ("args", JArr [JStr "echo.py"]);
   ("env", JObj [("MODE", JStr "production")])].

Definition prod_world : World :=
  with_registry
    (Some (dq "{'servers': {'echo': {'transport': 'stdio', 'command': 'python', 'args': ['echo.py'], 'env': {'MODE': 'production'}}}}"))
    world0.

(** A registry with a transport the proxy does not know. *)
Definition socket_fields : list (string * json) :=
  [("transport", JStr "websocket"); ("url", JStr "ws://localhost:3002")].

Definition socket_world : World :=
  with_registry
    (Some (dq "{'servers': {'ws': {'transport': 'websocket', 'url': 'ws://localhost:3002'}}}"))
    world0.

(** A descriptor whose [env] names a variable of the ambient
    environment. *)
Definition shadowing_fields : list (string * json) :=
  [("transport", JStr "stdio"); ("command", JStr "python");
   ("env", JObj [("PATH", JStr "/opt/bin"); ("MODE", JStr "test")])].

End RegistrySamples.

Section Facts.

Context {rt : Runtime}.

(* ===================================================================== *)
(** ** The monad *)
(* ===================================================================== *)

Lemma bind_return {A B} (m : M A) (k : A -> M B) w a w1 :
  m w = (Return a, w1) -> bind m k w = k a w1.
Proof. intros H. unfold bind. rewrite H. reflexivity. Qed.

Lemma bind_raise {A B} (m : M A) (k : A -> M B) w e w1 :
  m w = (Raise e, w1) -> bind m k w = (Raise e, w1).
Proof. intros H. unfold bind. rewrite H. reflexivity. Qed.

Ltac stable_by_computation :=
  unfold stable; simpl; repeat split; reflexivity.

Lemma stable_refl w : stable w w.
Proof. unfold stable. repeat split. Qed.

Lemma stable_trans w1 w2 w3 : stable w1 w2 -> stable w2 w3 -> stable w1 w3.
Proof.
  unfold stable.
  intros (a1 & a2 & a3 & a4 & a5 & a6 & a7 & a8)
         (b1 & b2 & b3 & b4 & b5 & b6 & b7 & b8).
  repeat split; congruence.
Qed.

Lemma quiet_ret {A} (a : A) : quiet (ret a).
Proof. intros w. apply stable_refl. Qed.

Lemma quiet_raise {A} e : quiet (@raise A e).
Proof. intros w. apply stable_refl. Qed.

Lemma quiet_lift {A} (r : result A) : quiet (lift r).
Proof. intros w. apply stable_refl. Qed.

Lemma quiet_bind {A B} (m : M A) (k : A -> M B) :
  quiet m -> (forall a, quiet (k a)) -> quiet (bind m k).
Proof.
  intros Hm Hk w. unfold bind.
  specialize (Hm w). destruct (m w) as [[a | e] w1]; simpl in *.
  - eapply stable_trans; [exact Hm | apply Hk].
  - exact Hm.
Qed.

Lemma quiet_stdin_write proc data : quiet (stdin_write proc data).
Proof.
  intros w. unfold stdin_write. simpl.
  destruct (stdin_script w) as [| [e |] rest]; stable_by_computation.
Qed.

Lemma quiet_stdout_readline proc timeout :
  quiet (stdout_readline proc timeout).
Proof.
  intros w. unfold stdout_readline. simpl.
  destruct (stdout_script w) as [| [d | | e] rest]; stable_by_computation.
Qed.

Lemma quiet_loads text : quiet (loads text).
Proof.
  unfold loads. destruct (json_loads text); [apply quiet_ret | apply quiet_raise].
Qed.

Lemma quiet_read_jsonrpc proc timeout : quiet (_read_jsonrpc proc timeout).
Proof.
  unfold _read_jsonrpc. apply quiet_bind.
  - apply quiet_stdout_readline.
  - intros line. apply quiet_loads.
Qed.

Lemma quiet_stdio_exchange proc method params formatter :
  quiet (stdio_exchange proc method params formatter).
Proof.
  unfold stdio_exchange, _send_jsonrpc, _send_notification.
  apply quiet_bind; [apply quiet_stdin_write | intros _].
  apply quiet_bind; [apply quiet_read_jsonrpc | intros _].
  apply quiet_bind; [apply quiet_stdin_write | intros _].
  apply quiet_bind; [apply quiet_stdin_write | intros _].
  apply quiet_bind; [apply quiet_read_jsonrpc | intros resp].
  apply quiet_bind; [apply quiet_lift | intros has_error].
  destruct has_error.
  - apply quiet_bind; [apply quiet_lift | intros; apply quiet_ret].
  - apply quiet_bind; [apply quiet_lift | intros; apply quiet_lift].
Qed.

(* ===================================================================== *)
(** ** Process transport: the child never outlives the call *)
(* ===================================================================== *)

Lemma spawn_inv cmd env w pid w1 :
  create_subprocess_exec cmd env w = (Return pid, w1) ->
  pid = next_pid w /\ w1 = start_child (log (ESpawn cmd env) w).
Proof.
  unfold create_subprocess_exec.
  destruct (forallb is_str cmd && forallb (fun kv => is_str (snd kv)) env);
    [ | discriminate].
  simpl. destruct (spawn_script w); [discriminate | ].
  intros H. inversion H. split; reflexivity.
Qed.

Lemma stdio_cleanup_spec pid w :
  exists w',
    stdio_cleanup pid w = (Return tt, w') /\
    trace w' = (trace w ++ ETerminate pid :: EWait pid 5
                  :: (if exits_on_sigterm w then [] else [EKill pid]))%list /\
    running w' = filter (fun p => negb (Nat.eqb p pid)) (running w).
Proof.
  unfold stdio_cleanup, bind, terminate, try_except, wait_for_exit, kill.
  simpl. destruct (exits_on_sigterm w) eqn:Hexit.
  - eexists. split; [reflexivity | ]. simpl. unfold append.
    rewrite <- app_assoc. split; reflexivity.
  - eexists. split; [reflexivity | ]. simpl. unfold append.
    rewrite <- !app_assoc. split; reflexivity.
Qed.

Lemma not_in_filter_out pid l :
  ~ In pid (filter (fun p => negb (Nat.eqb p pid)) l).
Proof.
  intros H. apply filter_In in H. destruct H as [_ H].
  rewrite Nat.eqb_refl in H. discriminate.
Qed.


(* ===================================================================== *)
(** ** The result formatters *)
(* ===================================================================== *)

Lemma py_get_obj d k default :
  py_get (JObj d) k default = Return (field_or d k default).
Proof. unfold py_get, field_or. destruct (lookup k d); reflexivity. Qed.

Lemma param_line_spec pname schema :
  param_line pname (JObj schema) = Return (param_text (pname, JObj schema)).
Proof.
  unfold param_line, param_text. rewrite !py_get_obj. simpl. reflexivity.
Qed.

Lemma params_loop_spec items : forall params,
  forallb (fun kv => is_obj (snd kv)) items = true ->
  params_loop items params = Return (params ++ map param_text items)%list.
Proof.
  induction items as [| [pname pschema] rest IH]; intros params Hall; simpl.
  - rewrite app_nil_r. reflexivity.
  - simpl in Hall. apply andb_true_iff in Hall. destruct Hall as [Hobj Hrest].
    destruct pschema; try discriminate.
    rewrite param_line_spec. simpl. rewrite (IH _ Hrest).
    unfold append. rewrite <- app_assoc. reflexivity.
Qed.

Lemma tool_step_spec lines tool :
  tool_descriptor tool = true ->
  tool_step lines tool = Return (lines ++ tool_text tool)%list.
Proof.
  destruct tool as [| | | | | | fields]; try discriminate.
  unfold tool_descriptor, tool_step, tool_text, has_key, declared_params,
    py_getitem, field_or.
  destruct (lookup "name" fields) as [name |]; [ | discriminate].
  rewrite py_get_obj. simpl.
  destruct (lookup "inputSchema" fields) as [schema |]; simpl.
  - destruct schema as [| | | | | | sfields]; try discriminate.
    simpl. destruct (lookup "properties" sfields) as [props |]; simpl.
    + destruct props as [| | | | | | pfields]; try discriminate.
      simpl.
      destruct (forallb (fun kv => is_obj (snd kv)) pfields) eqn:Hall;
        [ | discriminate].
      intros _. rewrite (params_loop_spec _ [] Hall). simpl.
      destruct (map param_text pfields) eqn:Hmap; unfold append, extend.
      * reflexivity.
      * rewrite <- app_assoc. reflexivity.
    + intros _. reflexivity.
  - intros _. reflexivity.
Qed.

Lemma tools_loop_spec tools : forall lines,
  forallb tool_descriptor tools = true ->
  tools_loop tools lines = Return (lines ++ flat_map tool_text tools)%list.
Proof.
  induction tools as [| tool rest IH]; intros lines Hall; simpl.
  - rewrite app_nil_r. reflexivity.
  - simpl in Hall. apply andb_true_iff in Hall. destruct Hall as [Htool Hrest].
    rewrite (tool_step_spec lines _ Htool). simpl.
    rewrite (IH _ Hrest), <- app_assoc. reflexivity.
Qed.

Lemma format_tools_spec fields tools :
  lookup "tools" fields = Some (JArr tools) ->
  forallb tool_descriptor tools = true ->
  _format_tools (JObj fields) =
  Return (match tools with
          | [] => no_tools_line
          | _ :: _ => tools_header ++ join nl (flat_map tool_text tools)
          end).
Proof.
  intros Hlookup Hall. unfold _format_tools, py_get. rewrite Hlookup. simpl.
  destruct tools as [| tool rest]; [reflexivity | ].
  cbn [truthy negb py_iter rbind].
  rewrite (tools_loop_spec _ [] Hall). reflexivity.
Qed.

Lemma content_part_spec item :
  content_item item = true ->
  content_part item = Return (JStr (content_text item)).
Proof.
  destruct item as [| | | | | | fields]; try discriminate.
  unfold content_item, content_part, content_text, field_or, py_get,
    py_getitem.
  destruct (lookup "type" fields) as [ty |]; simpl.
  - destruct (eq_str ty "text"); [ | reflexivity].
    destruct (lookup "text" fields) as [[| | | | text | |] |];
      try discriminate.
    reflexivity.
  - reflexivity.
Qed.

Lemma content_loop_spec content : forall parts,
  forallb content_item content = true ->
  content_loop content parts =
  Return (parts ++ map (fun item => JStr (content_text item)) content)%list.
Proof.
  induction content as [| item rest IH]; intros parts Hall; simpl.
  - rewrite app_nil_r. reflexivity.
  - simpl in Hall. apply andb_true_iff in Hall. destruct Hall as [Hitem Hrest].
    rewrite (content_part_spec _ Hitem). simpl.
    rewrite (IH _ Hrest). unfold append. rewrite <- app_assoc. reflexivity.
Qed.

Lemma all_strings_map {A} (f : A -> string) l :
  all_strings (map (fun x => JStr (f x)) l) = Return (map f l).
Proof.
  induction l as [| x rest IH]; simpl; [reflexivity | ].
  rewrite IH. reflexivity.
Qed.

Lemma format_call_result_spec fields content :
  lookup "content" fields = Some (JArr content) ->
  forallb content_item content = true ->
  _format_call_result (JObj fields) =
  Return (match content with
          | [] => empty_response_line
          | _ :: _ => join nl (map content_text content)
          end).
Proof.
  intros Hlookup Hall. unfold _format_call_result, py_get.
  rewrite Hlookup.
  cbn [rbind py_iter]. rewrite (content_loop_spec _ [] Hall).
  cbn [rbind app].
  destruct content as [| item rest]; [reflexivity | ].
  unfold py_join. rewrite all_strings_map. reflexivity.
Qed.



(* ===================================================================== *)
(** ** The facade *)
(* ===================================================================== *)

Lemma load_registry_spec w servers :
  servers_of w = Some servers ->
  exists registry,
    _load_registry w = (Return registry, log EMkdirs w) /\
    py_getitem registry "servers" = Return (JObj servers).
Proof.
  unfold servers_of, _load_registry, bind, _ensure_dirs, loads. simpl.
  destruct (registry_file w) as [text |].
  - destruct (json_loads text) as [[| | | | | | fields] |]; try discriminate.
    destruct (lookup "servers" fields) as [[| | | | | | d] |] eqn:Hservers;
      try discriminate.
    intros H. inversion H. subst d.
    eexists. split; [reflexivity | ]. simpl. rewrite Hservers. reflexivity.
  - intros H. inversion H. eexists. split; reflexivity.
Qed.

Lemma remote_discover_unknown alias w servers :
  servers_of w = Some servers ->
  lookup alias servers = None ->
  remote_discover alias w =
  (Return ("Server '" ++ alias
           ++ "' not found. Run registry_list() to see available servers."),
   log EMkdirs w).
Proof.
  intros Hservers Habsent.
  destruct (load_registry_spec _ _ Hservers) as (registry & Hload & Hget).
  unfold remote_discover, bind, lift. rewrite Hload, Hget. simpl.
  unfold has_key. rewrite Habsent. reflexivity.
Qed.

Lemma remote_discover_known alias w servers server :
  servers_of w = Some servers ->
  lookup alias servers = Some server ->
  remote_discover alias w =
  try_except (discover_try server) (discover_except alias) (log EMkdirs w).
Proof.
  intros Hservers Hpresent.
  destruct (load_registry_spec _ _ Hservers) as (registry & Hload & Hget).
  unfold remote_discover, bind, lift. rewrite Hload, Hget. simpl.
  unfold has_key. rewrite Hpresent. reflexivity.
Qed.

Lemma remote_call_unknown alias tool_name arguments w servers :
  servers_of w = Some servers ->
  lookup alias servers = None ->
  remote_call alias tool_name arguments w =
  (Return ("Server '" ++ alias ++ "' not found."), log EMkdirs w).
Proof.
  intros Hservers Habsent.
  destruct (load_registry_spec _ _ Hservers) as (registry & Hload & Hget).
  unfold remote_call, bind, lift. rewrite Hload, Hget. simpl.
  unfold has_key. rewrite Habsent. reflexivity.
Qed.

(** The world in which the [try] block of [remote_call] starts. *)
Lemma remote_call_known alias tool_name arguments w servers server args_dict :
  servers_of w = Some servers ->
  lookup alias servers = Some server ->
  json_loads arguments = Some args_dict ->
  remote_call alias tool_name arguments w =
  try_except (call_try server tool_name args_dict)
             (call_except alias tool_name)
             (log (EAudit "remote_call"
                          ("alias=" ++ alias ++ " tool=" ++ tool_name
                           ++ " args=" ++ arguments))
                  (log EMkdirs (log EMkdirs w))).
Proof.
  intros Hservers Hpresent Hargs.
  destruct (load_registry_spec _ _ Hservers) as (registry & Hload & Hget).
  unfold remote_call, bind, lift. rewrite Hload, Hget. simpl.
  unfold has_key. rewrite Hpresent. unfold loads. rewrite Hargs. reflexivity.
Qed.

Lemma remote_call_bad_arguments alias tool_name arguments w servers server :
  servers_of w = Some servers ->
  lookup alias servers = Some server ->
  json_loads arguments = None ->
  remote_call alias tool_name arguments w =
  (Raise JSONDecodeError, log EMkdirs w).
Proof.
  intros Hservers Hpresent Hargs.
  destruct (load_registry_spec _ _ Hservers) as (registry & Hload & Hget).
  unfold remote_call, bind, lift. rewrite Hload, Hget. simpl.
  unfold has_key. rewrite Hpresent. unfold loads. rewrite Hargs. reflexivity.
Qed.

(** A [try] whose handlers all answer with a text cannot raise. *)
Lemma try_except_returns {A} (body : M A) (handler : exn -> M A) w :
  (forall e w1, exists a, handler e w1 = (Return a, w1)) ->
  exists a w', try_except body handler w = (Return a, w').
Proof.
  intros Hhandler. unfold try_except.
  destruct (body w) as [[a | e] w1].
  - exists a, w1. reflexivity.
  - destruct (Hhandler e w1) as [a Ha]. exists a, w1. exact Ha.
Qed.

Lemma discover_except_returns alias e w :
  exists text, discover_except alias e w = (Return text, w).
Proof. destruct e; eexists; reflexivity. Qed.

Lemma call_except_returns alias tool_name e w :
  exists text, call_except alias tool_name e w = (Return text, w).
Proof. destruct e; eexists; reflexivity. Qed.

(** C4.  For an alias that the registry does not hold, [remote_discover]
    and [remote_call] answer that the server was not found, and the only
    thing they have done by then is to make sure the registry's
    directories exist: no process was spawned and no request was sent. *)
Theorem unknown_alias_not_found alias tool_name arguments w servers :
  servers_of w = Some servers ->
  lookup alias servers = None ->
  remote_discover alias w =
  (Return ("Server '" ++ alias
           ++ "' not found. Run registry_list() to see available servers."),
   log EMkdirs w) /\
  remote_call alias tool_name arguments w =
  (Return ("Server '" ++ alias ++ "' not found."), log EMkdirs w) /\
  trace (log EMkdirs w) = (trace w ++ [EMkdirs])%list /\
  running (log EMkdirs w) = running w.
Proof.
  intros Hservers Habsent. repeat split.
  - exact (remote_discover_unknown _ _ _ Hservers Habsent).
  - exact (remote_call_unknown _ _ _ _ _ Hservers Habsent).
Qed.

(* ===================================================================== *)
(** ** The two transports, step by step *)
(* ===================================================================== *)

Lemma stdio_request_spawned server method params formatter w pid w1 :
  spawns server w pid w1 ->
  _stdio_request server method params formatter w =
  try_finally (stdio_exchange pid method params formatter)
              (stdio_cleanup pid) w1.
Proof.
  intros (cmd & env & Hcmd & Henv & Hspawn).
  unfold _stdio_request, bind, lift. rewrite Hcmd, Henv, Hspawn. reflexivity.
Qed.

Lemma spawns_world server w pid w1 :
  spawns server w pid w1 ->
  exists cmd env,
    pid = next_pid w /\ w1 = start_child (log (ESpawn cmd env) w).
Proof.
  intros (cmd & env & _ & _ & Hspawn). exists cmd, env.
  exact (spawn_inv _ _ _ _ _ Hspawn).
Qed.

(** Whatever the exchange gives, the call gives, once the child is gone. *)
Lemma try_finally_cleanup {A} (body : M A) pid w1 r w2 :
  body w1 = (r, w2) ->
  exists w',
    try_finally body (stdio_cleanup pid) w1 = (r, w') /\
    trace w' = (trace w2 ++ ETerminate pid :: EWait pid 5
                  :: (if exits_on_sigterm w2 then [] else [EKill pid]))%list /\
    running w' = filter (fun p => negb (Nat.eqb p pid)) (running w2).
Proof.
  intros Hbody.
  destruct (stdio_cleanup_spec pid w2) as (w' & Hfin & Htrace & Hrun).
  exists w'. unfold try_finally. rewrite Hbody, Hfin. auto.
Qed.

Lemma exchange_handshake_fails pid method params formatter w e :
  writes_ok 1 (stdin_script w) = true ->
  handshake_fails w e ->
  exists w2,
    stdio_exchange pid method params formatter w = (Raise e, w2) /\
    trace w2 = (trace w ++ [ESend pid initialize_frame; ERecv pid 10])%list.
Proof.
  intros Hwrite Hfail.
  unfold stdio_exchange, _send_jsonrpc, _read_jsonrpc, loads, bind,
    stdin_write, stdout_readline, ret, raise.
  destruct (stdin_script w) as [| [e' |] tail] eqn:Hin;
    simpl in Hwrite; try discriminate;
    destruct Hfail as [[[Hout | [rest Hout]] He] | (line & rest & Hout & Hdec & He)];
    subst e; repeat (simpl; rewrite ?Hin, ?Hout, ?Hdec);
    eexists; (split; [reflexivity | ]); simpl; unfold append;
    rewrite <- app_assoc; reflexivity.
Qed.

Lemma exchange_handshake_done pid method params formatter w reply :
  handshake_done w reply ->
  exists w2,
    stdio_exchange pid method params formatter w =
    (reply_outcome formatter (json_loads reply), w2).
Proof.
  intros (Hwrite & line & value & rest & Hout & Hdec).
  unfold stdio_exchange, _send_jsonrpc, _send_notification, _read_jsonrpc,
    loads, bind, stdin_write, stdout_readline, lift, ret, raise,
    reply_outcome, rbind.
  destruct (stdin_script w) as [| [e1 |] [| [e2 |] [| [e3 |] tail]]] eqn:Hin;
    simpl in Hwrite; try discriminate;
    repeat (simpl; rewrite ?Hin, ?Hout, ?Hdec);
    (destruct (json_loads reply) as [resp |]; [ | eexists; reflexivity]);
    (destruct (py_in "error" resp) as [[|] | e]; [ | | eexists; reflexivity]);
    try (destruct (py_getitem resp "error"); eexists; reflexivity);
    destruct (py_get resp "result" (JObj [])); eexists; reflexivity.
Qed.

Lemma sse_request_replied server method params formatter w body :
  sse_replies server w body ->
  exists w',
    _sse_request server method params formatter w =
    (reply_outcome formatter (json_loads body), w').
Proof.
  intros (Hinstalled & [url Hurl] & [headers Hheaders] & Hreply).
  unfold _sse_request, loads, bind, lift, http_post, ret, raise,
    reply_outcome, rbind.
  rewrite Hinstalled, Hurl, Hheaders. simpl. rewrite Hreply.
  destruct (json_loads body) as [data |]; [ | eexists; reflexivity].
  destruct (py_in "error" data) as [[|] | e]; [ | | eexists; reflexivity].
  - destruct (py_getitem data "error"); eexists; reflexivity.
  - destruct (py_get data "result" (JObj [])); eexists; reflexivity.
Qed.

(** The whole process call when the handshake goes through. *)
Lemma stdio_request_replied server method params formatter w pid w1 reply :
  spawns server w pid w1 ->
  handshake_done w reply ->
  exists w',
    _stdio_request server method params formatter w =
    (reply_outcome formatter (json_loads reply), w').
Proof.
  intros Hspawn Hdone.
  rewrite (stdio_request_spawned _ _ _ _ _ _ _ Hspawn).
  destruct (spawns_world _ _ _ _ Hspawn) as (cmd & env & _ & Hw1).
  assert (Hdone1 : handshake_done w1 reply) by (subst w1; exact Hdone).
  destruct (exchange_handshake_done pid method params formatter _ _ Hdone1)
    as [w2 Hbody].
  destruct (try_finally_cleanup _ pid _ _ _ Hbody) as (w' & Hcall & _).
  exists w'. exact Hcall.
Qed.

Lemma reply_outcome_error formatter fields err :
  lookup "error" fields = Some err ->
  reply_outcome formatter (Some (JObj fields)) =
  Return ("Server error: " ++ py_str err).
Proof.
  intros Herr. unfold reply_outcome, py_in, py_getitem, has_key.
  rewrite Herr. reflexivity.
Qed.

Lemma reply_outcome_bare formatter fields :
  lookup "error" fields = None ->
  lookup "result" fields = None ->
  reply_outcome formatter (Some (JObj fields)) = formatter (JObj []).
Proof.
  intros Herr Hres. unfold reply_outcome, py_in, py_get, has_key.
  rewrite Herr, Hres. reflexivity.
Qed.




(* ===================================================================== *)
(** ** The remote transport's headers *)
(* ===================================================================== *)

Lemma auth_headers_spec server headers :
  auth_headers server = Return headers ->
  (exists token,
      auth_token server = Some token /\ truthy token = true /\
      headers = [("Authorization", "Bearer " ++ py_str token)]) \/
  ((forall token, auth_token server = Some token -> truthy token = false) /\
   headers = []).
Proof.
  unfold auth_headers, auth_token, py_get, py_getitem.
  destruct server as [| | | | | | fields]; try discriminate.
  destruct (lookup "env" fields) as [env |]; simpl.
  - destruct env as [| | | | | | d]; try discriminate.
    destruct (lookup "AUTH_TOKEN" d) as [token |] eqn:Htoken; simpl.
    + destruct (truthy token) eqn:Htruthy; simpl.
      * intros H. inversion H. left.
        exists token. auto.
      * intros H. inversion H. right. split; [ | reflexivity].
        intros token' Heq. inversion Heq. subst token'. exact Htruthy.
    + intros H. inversion H. right. split; [ | reflexivity].
      intros token' Heq. discriminate.
  - intros H. inversion H. right. split; [ | reflexivity].
    intros token' Heq. discriminate.
Qed.

(** The remote transport posts at most once, and with the headers of
    [auth_headers]. *)
Lemma sse_request_trace server method params formatter w :
  trace (snd (_sse_request server method params formatter w)) = trace w \/
  exists url headers,
    auth_headers server = Return headers /\
    trace (snd (_sse_request server method params formatter w)) =
    (trace w ++ [EPost url headers (jsonrpc_request 1 method params)])%list.
Proof.
  unfold _sse_request, loads, bind, lift, http_post, ret, raise. simpl.
  destruct (httpx_installed w); [ | left; reflexivity].
  destruct (endpoint server) as [url | e]; [ | left; reflexivity].
  destruct (auth_headers server) as [headers | e]; [ | left; reflexivity].
  right. exists url, headers. split; [reflexivity | ].
  destruct (http_script w) as [body | e]; [ | reflexivity].
  destruct (json_loads body) as [data |]; [ | reflexivity].
  destruct (py_in "error" data) as [[|] | e]; [ | | reflexivity].
  - destruct (py_getitem data "error"); reflexivity.
  - destruct (py_get data "result" (JObj [])); reflexivity.
Qed.

(** C7, as the code has it.  Every POST the remote transport issues
    carries an [Authorization] header exactly when the descriptor's [env]
    holds an [AUTH_TOKEN] whose value is true in Python's sense (not empty,
    not null, not zero), and the header is then ["Bearer "] followed by
    that value. *)
Theorem authorization_header_iff_truthy_token
  server method params formatter w evs url headers body :
  trace (snd (_sse_request server method params formatter w)) =
  (trace w ++ evs)%list ->
  In (EPost url headers body) evs ->
  ((exists value, In ("Authorization", value) headers) <->
   (exists token, auth_token server = Some token /\ truthy token = true)) /\
  (forall value,
      In ("Authorization", value) headers ->
      exists token,
        auth_token server = Some token /\ value = "Bearer " ++ py_str token).
Proof.
  intros Htrace Hin.
  destruct (sse_request_trace server method params formatter w)
    as [Hsame | (url' & headers' & Hheaders & Hpost)].
  - rewrite Hsame in Htrace. rewrite <- (app_nil_r (trace w)) in Htrace at 1.
    apply app_inv_head in Htrace. subst evs. destruct Hin.
  - rewrite Hpost in Htrace. apply app_inv_head in Htrace. subst evs.
    destruct Hin as [Heq | []]. inversion Heq. subst url' headers' body.
    destruct (auth_headers_spec _ _ Hheaders)
      as [(token & Htoken & Htruthy & Hvalue) | [Hnone Hempty]];
      subst headers.
    + split.
      * split; intros _.
        -- exists token. auto.
        -- eexists. left. reflexivity.
      * intros value [Hv | []]. inversion Hv. exists token. auto.
    + split.
      * split.
        -- intros [value []].
        -- intros (token & Htoken & Htruthy).
           rewrite (Hnone _ Htoken) in Htruthy. discriminate.
      * intros value [].
Qed.

(* ===================================================================== *)
(** ** What the facade lets out *)
(* ===================================================================== *)


Lemma stdio_request_no_command fields method params formatter w :
  lookup "command" fields = None ->
  _stdio_request (JObj fields) method params formatter w =
  (Raise (KeyError "command"), w).
Proof.
  intros Hnone.
  unfold _stdio_request, bind, lift, command_line, py_getitem.
  rewrite Hnone. reflexivity.
Qed.

Lemma sse_request_no_url fields method params formatter w :
  lookup "url" fields = None ->
  _sse_request (JObj fields) method params formatter w =
  (if httpx_installed w then Raise (KeyError "url")
   else Return httpx_missing_line, w).
Proof.
  intros Hnone.
  unfold _sse_request, bind, lift, ret, endpoint, py_getitem.
  rewrite Hnone. destruct (httpx_installed w); reflexivity.
Qed.

Lemma discover_try_stdio fields :
  lookup "transport" fields = Some (JStr "stdio") ->
  discover_try (JObj fields) =
  _stdio_request (JObj fields) "tools/list" (JObj []) _format_tools.
Proof.
  intros Ht. unfold discover_try, bind, lift, py_getitem. rewrite Ht.
  reflexivity.
Qed.

Lemma discover_try_sse fields :
  lookup "transport" fields = Some (JStr "sse") ->
  discover_try (JObj fields) =
  _sse_request (JObj fields) "tools/list" (JObj []) _format_tools.
Proof.
  intros Ht. unfold discover_try, bind, lift, py_getitem. rewrite Ht.
  reflexivity.
Qed.

Lemma call_try_stdio fields tool_name args_dict :
  lookup "transport" fields = Some (JStr "stdio") ->
  call_try (JObj fields) tool_name args_dict =
  _stdio_request (JObj fields) "tools/call"
    (JObj [("name", JStr tool_name); ("arguments", args_dict)])
    _format_call_result.
Proof.
  intros Ht. unfold call_try, bind, lift, py_getitem. rewrite Ht.
  reflexivity.
Qed.

Lemma call_try_sse fields tool_name args_dict :
  lookup "transport" fields = Some (JStr "sse") ->
  call_try (JObj fields) tool_name args_dict =
  _sse_request (JObj fields) "tools/call"
    (JObj [("name", JStr tool_name); ("arguments", args_dict)])
    _format_call_result.
Proof.
  intros Ht. unfold call_try, bind, lift, py_getitem. rewrite Ht.
  reflexivity.
Qed.


(* ===================================================================== *)
(** ** Further facts about the two transports *)
(* ===================================================================== *)

(** What goes over the pipes when the handshake goes through: the
    [initialize] request with id 1, one read of ten seconds, the
    [initialized] notification, the caller's request with id 2, one read
    of thirty seconds; each frame is one line. *)
Theorem exchange_frames_in_order pid method params formatter w reply :
  handshake_done w reply ->
  trace (snd (stdio_exchange pid method params formatter w)) =
  (trace w ++ [ESend pid initialize_frame; ERecv pid 10;
               ESend pid initialized_frame;
               ESend pid (request_frame method params);
               ERecv pid 30])%list.
Proof.
  intros (Hwrite & line & value & rest & Hout & Hdec).
  unfold stdio_exchange, _send_jsonrpc, _send_notification, _read_jsonrpc,
    loads, bind, stdin_write, stdout_readline, lift, ret, raise.
  destruct (stdin_script w) as [| [e1 |] [| [e2 |] [| [e3 |] tail]]] eqn:Hin;
    simpl in Hwrite; try discriminate;
    repeat (simpl; rewrite ?Hin, ?Hout, ?Hdec);
    (destruct (json_loads reply) as [resp |];
     [destruct (py_in "error" resp) as [[|] | e];
      [destruct (py_getitem resp "error")
      | destruct (py_get resp "result" (JObj []))
      | ]
     | ]);
    simpl; unfold append; rewrite <- !app_assoc; reflexivity.
Qed.

(** A time-out on the request: the call raises it, and the child is gone
    when it does. *)
Theorem request_timeout_ends_the_call
  server method params formatter w pid w1 :
  spawns server w pid w1 ->
  request_times_out w ->
  exists w',
    _stdio_request server method params formatter w =
    (Raise TimeoutError, w') /\
    ~ In pid (running w').
Proof.
  intros Hspawn (Hwrite & line & value & Hdec & Hout).
  rewrite (stdio_request_spawned _ _ _ _ _ _ _ Hspawn).
  destruct (spawns_world _ _ _ _ Hspawn) as (cmd & env & _ & Hw1).
  assert (Hbody : exists w2,
             stdio_exchange pid method params formatter w1 =
             (Raise TimeoutError, w2)).
  { subst w1.
    unfold stdio_exchange, _send_jsonrpc, _send_notification, _read_jsonrpc,
      loads, bind, stdin_write, stdout_readline, lift, ret, raise.
    destruct (stdin_script w) as [| [e1 |] [| [e2 |] [| [e3 |] tail]]] eqn:Hin;
      simpl in Hwrite; try discriminate;
      destruct Hout as [Hout | [rest Hout]];
      repeat (simpl; rewrite ?Hin, ?Hout, ?Hdec);
      eexists; reflexivity. }
  destruct Hbody as [w2 Hbody].
  destruct (try_finally_cleanup _ pid _ _ _ Hbody)
    as (w' & Hcall & _ & Hrun).
  exists w'. split; [exact Hcall | ].
  rewrite Hrun. apply not_in_filter_out.
Qed.

(** When the operating system refuses to start the child, the call raises
    what it said; there is no child, and nothing to clean up. *)
Theorem spawn_failure_leaves_no_child
  server method params formatter w cmd env e :
  command_line server = Return cmd ->
  child_env (environ w) server = Return env ->
  forallb is_str cmd && forallb (fun kv => is_str (snd kv)) env = true ->
  spawn_script w = Some e ->
  _stdio_request server method params formatter w =
  (Raise e, log (ESpawn cmd env) w).
Proof.
  intros Hcmd Henv Hstr Hspawn.
  unfold _stdio_request, bind, lift, create_subprocess_exec.
  rewrite Hcmd, Henv, Hstr. simpl. rewrite Hspawn. reflexivity.
Qed.

(** The remote transport does no handshake: all it does to the outside is
    at most one POST, of the caller's request with id 1; it starts no
    process. *)
Theorem remote_call_is_one_post server method params formatter w :
  let w' := snd (_sse_request server method params formatter w) in
  (trace w' = trace w \/
   exists url headers,
     trace w' =
     (trace w ++ [EPost url headers (jsonrpc_request 1 method params)])%list)
  /\ running w' = running w.
Proof.
  simpl. split.
  - destruct (sse_request_trace server method params formatter w)
      as [Hsame | (url & headers & _ & Hpost)].
    + left. exact Hsame.
    + right. exists url, headers. exact Hpost.
  - unfold _sse_request, loads, bind, lift, http_post, ret, raise. simpl.
    destruct (httpx_installed w); [ | reflexivity].
    destruct (endpoint server) as [url | e]; [ | reflexivity].
    destruct (auth_headers server) as [headers | e]; [ | reflexivity].
    simpl.
    destruct (http_script w) as [body | e]; [ | reflexivity].
    destruct (json_loads body) as [data |]; [ | reflexivity].
    destruct (py_in "error" data) as [[|] | e]; [ | | reflexivity].
    + destruct (py_getitem data "error"); reflexivity.
    + destruct (py_get data "result" (JObj [])); reflexivity.
Qed.

End Facts.

(* ===================================================================== *)
(** ** The statements at the sample data *)
(* ===================================================================== *)

Import Samples.



Lemma echo_spawns w :
  environ w = [("PATH", "/usr/bin")] ->
  spawn_script w = None ->
  next_pid w = 101 ->
  spawns echo_server w 101 (echo_started w).
Proof.
  intros Henv Hspawn Hpid. exists echo_cmd, echo_env.
  unfold child_env, create_subprocess_exec. rewrite Henv. simpl.
  rewrite Hspawn, Hpid. repeat split.
Defined.

Lemma echo_handshake_done reply :
  handshake_done (rt := R) (child_replying reply) reply.
Proof.
  split; [reflexivity | ].
  exists init_reply,
    (JObj [("jsonrpc", JStr "2.0"); ("id", JInt 1);
           ("result", JObj [("protocolVersion", JStr "2024-11-05");
                            ("capabilities", JObj [])])]),
    [].
  split; [reflexivity | vm_compute; reflexivity].
Defined.

(** The reference runtime on the sample texts. *)
Example reference_runtime_on_samples :
  Reference.ref_loads tools_reply =
  Some (JObj [("jsonrpc", JStr "2.0"); ("id", JInt 2);
              ("result", JObj [("tools", JArr two_tools)])]) /\
  Reference.ref_loads error_reply =
  Some (JObj [("jsonrpc", JStr "2.0"); ("id", JInt 2);
              ("error", error_payload)]) /\
  Reference.ref_loads garbled_reply = None /\
  Reference.ref_loads EmptyString = None /\
  Reference.ref_loads "{oops" = None /\
  Reference.ref_repr error_payload =
  "{'code': -32601, 'message': 'Method not found'}" /\
  Reference.ref_dumps list_request ++ nl =
  dq "{'jsonrpc': '2.0', 'id': 1, 'method': 'tools/list', 'params': {}}" ++ nl /\
  servers_of (rt := R) world0 = Some sample_servers /\
  servers_of (rt := R) broken_world = Some broken_servers.
Proof. vm_compute. repeat split. Qed.


(** What that trace is. *)
Example deaf_child_trace :
  trace (snd (_stdio_request (rt := R) echo_server "tools/list" (JObj [])
                (_format_tools (rt := R)) deaf_child)) =
  [ESpawn echo_cmd echo_env; ESend 101 initialize_text; ERecv 101 10;
   ETerminate 101; EWait 101 5; EKill 101].
Proof. vm_compute. reflexivity. Qed.

(** The exit paths of the process transport, one sample each: the child
    is gone after every one of them. *)
Example exit_paths_leave_no_child :
  let call w :=
    _stdio_request (rt := R) echo_server "tools/list" (JObj [])
      (_format_tools (rt := R)) w in
  (fst (call (child_replying tools_reply)) = Return two_tools_text /\
   running (snd (call (child_replying tools_reply))) = [100]) /\
  (fst (call deaf_child) = Raise TimeoutError /\
   running (snd (call deaf_child)) = [100]) /\
  (fst (call stalling_child) = Raise TimeoutError /\
   running (snd (call stalling_child)) = [100]) /\
  (fst (call (child_replying garbled_reply)) = Raise JSONDecodeError /\
   running (snd (call (child_replying garbled_reply))) = [100]) /\
  (fst (call (child_replying error_reply)) =
   Return "Server error: {'code': -32601, 'message': 'Method not found'}" /\
   running (snd (call (child_replying error_reply))) = [100]) /\
  (fst (call (set_stdin [Some (OSError "[Errno 32] Broken pipe")] world0)) =
   Raise (OSError "[Errno 32] Broken pipe") /\
   running (snd (call (set_stdin [Some (OSError "[Errno 32] Broken pipe")]
                         world0))) = [100]).
Proof. vm_compute. repeat split. Qed.





(** C4 at the samples. *)
Lemma unknown_alias_not_found_witness :
  remote_discover (rt := R) "ghost" world0 =
  (Return "Server 'ghost' not found. Run registry_list() to see available servers.",
   log EMkdirs world0) /\
  remote_call (rt := R) "ghost" "search" "{}" world0 =
  (Return "Server 'ghost' not found.", log EMkdirs world0) /\
  trace (log EMkdirs world0) = (trace world0 ++ [EMkdirs])%list /\
  running (log EMkdirs world0) = running world0.
Proof.
  apply (@unknown_alias_not_found R "ghost" "search" "{}" world0
           sample_servers); vm_compute; reflexivity.
Defined.





Lemma web_replies body :
  sse_replies (rt := R) web_server (with_http (Return body) world0) body.
Proof.
  split; [reflexivity | ]. split; [ | split].
  - exists "http://localhost:3001/mcp". reflexivity.
  - exists [("Authorization", "Bearer secret")]. reflexivity.
  - reflexivity.
Defined.

(** C7 at the samples: the endpoint with a token. *)
Lemma authorization_header_iff_truthy_token_witness :
  ((exists value,
       In ("Authorization", value) [("Authorization", "Bearer secret")]) <->
   (exists token,
       auth_token web_server = Some token /\ truthy token = true)) /\
  (forall value,
      In ("Authorization", value) [("Authorization", "Bearer secret")] ->
      exists token,
        auth_token web_server = Some token /\
        value = "Bearer " ++ py_str (rt := R) token).
Proof.
  apply (@authorization_header_iff_truthy_token R web_server "tools/list"
           (JObj []) (_format_tools (rt := R))
           (with_http (Return empty_tools_reply) world0)
           [EPost "http://localhost:3001/mcp"
                  [("Authorization", "Bearer secret")] list_request]
           "http://localhost:3001/mcp" [("Authorization", "Bearer secret")]
           list_request).
  - vm_compute. reflexivity.
  - left. reflexivity.
Defined.

(** C7 as stated fails: the key [AUTH_TOKEN] is there, its value is the
    empty string, and the POST goes out without an [Authorization]
    header. *)
Lemma blank_token_sends_no_header :
  auth_token blank_token_server = Some (JStr EmptyString) /\
  servers_of (rt := R)
    (with_registry (Some blank_token_registry_text) world0) =
  Some [("web", blank_token_server)] /\
  trace (snd (remote_discover (rt := R) "web"
                (with_http (Return empty_tools_reply)
                   (with_registry (Some blank_token_registry_text) world0)))) =
  [EMkdirs; EPost "http://localhost:3001/mcp" [] list_request].
Proof. vm_compute. repeat split. Qed.


(** The same, as the caller of the facade sees it. *)
Example downstream_error_at_the_facade :
  fst (remote_discover (rt := R) "echo" (child_replying error_reply)) =
  Return "Server error: {'code': -32601, 'message': 'Method not found'}" /\
  fst (remote_discover (rt := R) "web"
         (with_http (Return error_reply) world0)) =
  Return "Server error: {'code': -32601, 'message': 'Method not found'}" /\
  fst (remote_call (rt := R) "echo" "search" (dq "{'query': 'x'}")
         (child_replying error_reply)) =
  Return "Server error: {'code': -32601, 'message': 'Method not found'}".
Proof. vm_compute. repeat split. Qed.

(** The round trip of the specification's section 8: the two tools of
    [tools_reply], decoded and formatted, through the facade. *)
Example two_tools_round_trip :
  fst (remote_discover (rt := R) "echo" (child_replying tools_reply)) =
  Return two_tools_text.
Proof. vm_compute. reflexivity. Qed.

(** The frames of a full exchange with the sample child, as text. *)
Lemma exchange_frames_in_order_witness :
  trace (snd (stdio_exchange (rt := R) 101 "tools/list" (JObj [])
                (_format_tools (rt := R)) (child_replying tools_reply))) =
  [ESend 101 initialize_text; ERecv 101 10;
   ESend 101 (dq "{'jsonrpc': '2.0', 'method': 'notifications/initialized'}"
              ++ nl);
   ESend 101 (dq "{'jsonrpc': '2.0', 'id': 2, 'method': 'tools/list', 'params': {}}"
              ++ nl);
   ERecv 101 30].
Proof.
  apply (@exchange_frames_in_order R 101 "tools/list" (JObj [])
           (_format_tools (rt := R)) (child_replying tools_reply)
           tools_reply).
  apply echo_handshake_done.
Defined.

(** The child that stalls after the handshake. *)
Lemma request_timeout_ends_the_call_witness :
  exists w',
    _stdio_request (rt := R) echo_server "tools/list" (JObj [])
      (_format_tools (rt := R)) stalling_child = (Raise TimeoutError, w') /\
    ~ In 101 (running w').
Proof.
  apply (@request_timeout_ends_the_call R echo_server "tools/list" (JObj [])
           (_format_tools (rt := R)) stalling_child 101
           (echo_started stalling_child)).
  - apply echo_spawns; reflexivity.
  - split; [reflexivity | ].
    exists init_reply,
      (JObj [("jsonrpc", JStr "2.0"); ("id", JInt 1);
             ("result", JObj [("protocolVersion", JStr "2024-11-05");
                              ("capabilities", JObj [])])]).
    split; [vm_compute; reflexivity | left; reflexivity].
Defined.

(** The descriptor with the empty command: the operating system refuses
    it. *)
Lemma spawn_failure_leaves_no_child_witness :
  _stdio_request (rt := R)
    (JObj [("transport", JStr "stdio"); ("command", JStr EmptyString)])
    "tools/list" (JObj []) (_format_tools (rt := R)) broken_world =
  (Raise (OSError "[Errno 2] No such file or directory: ''"),
   log (ESpawn [JStr EmptyString] [("PATH", JStr "/usr/bin")]) broken_world).
Proof.
  apply (@spawn_failure_leaves_no_child R
           (JObj [("transport", JStr "stdio"); ("command", JStr EmptyString)])
           "tools/list" (JObj []) (_format_tools (rt := R)) broken_world
           [JStr EmptyString] [("PATH", JStr "/usr/bin")]
           (OSError "[Errno 2] No such file or directory: ''"));
    reflexivity.
Defined.

(* ===================================================================== *)
(** ** The registry store: dicts *)
(* ===================================================================== *)

Section RegistryFacts.

Context {rt : Runtime} {pp : Printer}.

Lemma lookup_dict_set_same k v d : lookup k (dict_set k v d) = Some v.
Proof.
  induction d as [| [k' v'] d IH]; simpl.
  - rewrite String.eqb_refl. reflexivity.
  - destruct (String.eqb k k') eqn:Hk; simpl; rewrite Hk;
      [reflexivity | exact IH].
Qed.

Lemma lookup_dict_set_other k k' v d :
  k <> k' -> lookup k (dict_set k' v d) = lookup k d.
Proof.
  intros Hneq. apply String.eqb_neq in Hneq.
  induction d as [| [k2 v2] d IH]; simpl.
  - rewrite Hneq. reflexivity.
  - destruct (String.eqb k' k2) eqn:Hk; simpl.
    + apply String.eqb_eq in Hk. subst k2. rewrite Hneq. reflexivity.
    + destruct (String.eqb k k2); [reflexivity | exact IH].
Qed.

Lemma lookup_dict_del_same k d : lookup k (dict_del k d) = None.
Proof.
  unfold dict_del. induction d as [| [k' v'] d IH]; simpl; [reflexivity | ].
  destruct (String.eqb k k') eqn:Hk; simpl; [exact IH | ].
  rewrite Hk. exact IH.
Qed.

Lemma lookup_dict_del_other k k' d :
  k <> k' -> lookup k (dict_del k' d) = lookup k d.
Proof.
  intros Hneq. unfold dict_del.
  induction d as [| [k2 v2] d IH]; simpl; [reflexivity | ].
  destruct (String.eqb k' k2) eqn:Hk; simpl.
  - apply String.eqb_eq in Hk. subst k2.
    apply String.eqb_neq in Hneq. rewrite Hneq. exact IH.
  - destruct (String.eqb k k2); [reflexivity | exact IH].
Qed.

Lemma dict_del_fresh k d : lookup k d = None -> dict_del k d = d.
Proof.
  unfold dict_del. induction d as [| [k' v'] d IH]; simpl; [reflexivity | ].
  destruct (String.eqb k k') eqn:Hk; [discriminate | ].
  intros Hnone. simpl. rewrite (IH Hnone). reflexivity.
Qed.

Lemma dict_del_set_fresh k v d :
  lookup k d = None -> dict_del k (dict_set k v d) = d.
Proof.
  induction d as [| [k' v'] d IH]; simpl.
  - intros _. unfold dict_del. simpl. rewrite String.eqb_refl. reflexivity.
  - destruct (String.eqb k k') eqn:Hk; [discriminate | ].
    intros Hnone. unfold dict_del in *. simpl. rewrite Hk. simpl.
    rewrite (IH Hnone). reflexivity.
Qed.

Lemma dict_set_set k v v' d :
  dict_set k v (dict_set k v' d) = dict_set k v d.
Proof.
  induction d as [| [k' x] d IH]; simpl.
  - rewrite String.eqb_refl. reflexivity.
  - destruct (String.eqb k k') eqn:Hk; simpl; rewrite Hk;
      [reflexivity | rewrite IH; reflexivity].
Qed.

Lemma dict_set_same k v d : lookup k d = Some v -> dict_set k v d = d.
Proof.
  induction d as [| [k' x] d IH]; simpl; [discriminate | ].
  destruct (String.eqb k k') eqn:Hk.
  - intros H. inversion H. reflexivity.
  - intros H. rewrite (IH H). reflexivity.
Qed.

(* ===================================================================== *)
(** ** The registry store: reading and writing *)
(* ===================================================================== *)

Lemma load_registry_value w registry :
  registry_of w = Some registry ->
  _load_registry w = (Return registry, log EMkdirs w).
Proof.
  unfold registry_of, _load_registry, bind, _ensure_dirs, loads. simpl.
  destruct (registry_file w) as [text |].
  - intros H. rewrite H. reflexivity.
  - intros H. inversion H. reflexivity.
Qed.

Lemma servers_of_registry w fields servers :
  registry_of w = Some (JObj fields) ->
  lookup "servers" fields = Some (JObj servers) ->
  servers_of w = Some servers.
Proof.
  unfold registry_of, servers_of.
  destruct (registry_file w) as [text |].
  - intros H Hs. rewrite H, Hs. reflexivity.
  - intros H Hs. inversion H. subst fields. simpl in Hs. inversion Hs.
    reflexivity.
Qed.

(** What [_save_registry] leaves: the file holds the text of [registry],
    and that is all that changed but the trace. *)
Lemma save_registry_spec registry w :
  exists w',
    _save_registry registry w = (Return tt, w') /\
    registry_file w' = Some (json_dumps_indent registry) /\
    trace w' = (trace w ++ [EMkdirs])%list /\
    stable_but_file w w'.
Proof.
  unfold _save_registry, bind, _ensure_dirs, write_registry_file.
  eexists. split; [reflexivity | ]. simpl. repeat split.
Qed.

(** The three steps every change of the registry ends with. *)
Lemma commit_spec registry action details (text : string) w :
  exists w',
    bind (_save_registry registry)
         (fun _ => bind (_audit action details) (fun _ => ret text)) w =
    (Return text, w') /\
    registry_file w' = Some (json_dumps_indent registry) /\
    trace w' = (trace w ++ [EMkdirs; EMkdirs; EAudit action details])%list /\
    stable_but_file w w'.
Proof.
  unfold _save_registry, _audit, bind, _ensure_dirs, write_registry_file, ret.
  eexists. split; [reflexivity | ]. simpl. unfold append.
  rewrite <- !app_assoc. repeat split.
Qed.

Lemma registry_of_written w registry :
  registry_file w = Some (json_dumps_indent registry) ->
  round_trips registry ->
  registry_of w = Some registry.
Proof. unfold registry_of, round_trips. intros Hfile Hrt. rewrite Hfile. exact Hrt. Qed.

Lemma servers_of_written w fields servers :
  registry_file w = Some (json_dumps_indent (with_servers fields servers)) ->
  round_trips (with_servers fields servers) ->
  servers_of w = Some servers.
Proof.
  intros Hfile Hrt.
  apply (servers_of_registry w (dict_set "servers" (JObj servers) fields)).
  - exact (registry_of_written _ _ Hfile Hrt).
  - apply lookup_dict_set_same.
Qed.

Lemma given_not_empty o s : given o = Some s -> String.eqb s EmptyString = false.
Proof.
  unfold given. destruct o as [s' |]; [ | discriminate].
  destruct (String.eqb s' EmptyString) eqn:Hs; [discriminate | ].
  intros H. inversion H. subst s'. exact Hs.
Qed.

Lemma registry_entry_spec
  now transport description command args url env args_value env_value w :
  decoded args = Some args_value ->
  decoded env = Some env_value ->
  exists entry,
    registry_entry now transport description command args url env w =
    (Return entry, w) /\
    JObj entry =
    descriptor_of now transport description command args_value url env_value.
Proof.
  unfold decoded, registry_entry, descriptor_of, bind, loads, ret.
  destruct (given args) as [a |];
    [destruct (json_loads a) as [va |]; [ | discriminate] | ];
    (destruct (given env) as [e |];
     [destruct (json_loads e) as [ve |]; [ | discriminate] | ]);
    intros Ha He; inversion Ha; inversion He;
    destruct (given command), (given url);
    eexists; split; reflexivity.
Qed.

Lemma registry_entry_undecodable
  now transport description command args url env w :
  decoded args = None \/ decoded env = None ->
  registry_entry now transport description command args url env w =
  (Raise JSONDecodeError, w).
Proof.
  unfold decoded, registry_entry, bind, loads, ret, raise.
  destruct (given args) as [a |];
    [destruct (json_loads a) as [va |] | ];
    (destruct (given env) as [e |];
     [destruct (json_loads e) as [ve |] | ]);
    intros [H | H]; try discriminate; reflexivity.
Qed.

Lemma validation_passes transport command url :
  invariant_ok transport command url = true ->
  negb (String.eqb transport "stdio" || String.eqb transport "sse") = false /\
  String.eqb transport "stdio"
  && match given command with Some _ => false | None => true end = false /\
  String.eqb transport "sse"
  && match given url with Some _ => false | None => true end = false.
Proof.
  unfold invariant_ok, is_given.
  destruct (String.eqb transport "stdio") eqn:Hstdio;
    destruct (String.eqb transport "sse") eqn:Hsse.
  - apply String.eqb_eq in Hstdio. apply String.eqb_eq in Hsse.
    rewrite Hstdio in Hsse. discriminate.
  - destruct (given command); destruct (given url);
      simpl; intros H; try discriminate; repeat split.
  - destruct (given command); destruct (given url);
      simpl; intros H; try discriminate; repeat split.
  - simpl. discriminate.
Qed.

Lemma descriptor_of_ok
  now transport description command args_value url env_value :
  invariant_ok transport command url = true ->
  descriptor_ok (descriptor_of now transport description command args_value
                   url env_value) = true.
Proof.
  unfold invariant_ok, is_given, descriptor_ok, descriptor_of.
  cbn [lookup app String.eqb Ascii.eqb Bool.eqb].
  destruct (String.eqb transport "stdio") eqn:Hstdio.
  - destruct (given command) as [c |] eqn:Hc.
    + intros _. simpl. rewrite (given_not_empty _ _ Hc). reflexivity.
    + simpl. destruct (String.eqb transport "sse") eqn:Hsse; [ | discriminate].
      apply String.eqb_eq in Hstdio. apply String.eqb_eq in Hsse. congruence.
  - simpl. destruct (String.eqb transport "sse") eqn:Hsse; [ | discriminate].
    destruct (given url) as [u |] eqn:Hu; [ | discriminate].
    intros _. destruct (given command); destruct args_value; simpl;
      rewrite (given_not_empty _ _ Hu); reflexivity.
Qed.

(* ===================================================================== *)
(** ** The registry store: adding and removing *)
(* ===================================================================== *)

Lemma resolve_servers w servers alias :
  servers_of w = Some servers -> resolve w alias = lookup alias servers.
Proof. unfold resolve. intros H. rewrite H. reflexivity. Qed.

Lemma store_entry_spec fields servers alias entry :
  lookup "servers" fields = Some (JObj servers) ->
  store_entry (JObj fields) alias entry =
  Return (with_servers fields (dict_set alias entry servers)).
Proof.
  intros Hs. unfold store_entry, py_getitem, py_setitem, with_servers.
  rewrite Hs. reflexivity.
Qed.

Lemma drop_entry_spec fields servers alias descriptor :
  lookup "servers" fields = Some (JObj servers) ->
  lookup alias servers = Some descriptor ->
  drop_entry (JObj fields) alias =
  Return (with_servers fields (dict_del alias servers)).
Proof.
  intros Hs Ha.
  unfold drop_entry, py_getitem, py_delitem, with_servers, has_key.
  rewrite Hs. simpl. rewrite Ha. reflexivity.
Qed.

(** A run of [registry_add] that gets to the end. *)
Lemma registry_add_run
  now alias transport command args url env description w fields servers
  args_value env_value :
  invariant_ok transport command url = true ->
  registry_of w = Some (JObj fields) ->
  lookup "servers" fields = Some (JObj servers) ->
  decoded args = Some args_value ->
  decoded env = Some env_value ->
  exists w',
    registry_add now alias transport command args url env description w =
    (Return (added_text alias transport), w') /\
    registry_file w' =
    Some (json_dumps_indent
            (with_servers fields
               (dict_set alias
                  (descriptor_of now transport description command
                     args_value url env_value) servers))) /\
    trace w' =
    (trace w ++ [EMkdirs; EMkdirs; EMkdirs;
                 EAudit "registry_add"
                        ("alias=" ++ alias ++ " transport=" ++ transport)])%list /\
    stable_but_file w w'.
Proof.
  intros Hok Hreg Hservers Hargs Henv.
  destruct (validation_passes _ _ _ Hok) as (H1 & H2 & H3).
  destruct (registry_entry_spec now transport description command args url
              env args_value env_value (log EMkdirs w) Hargs Henv)
    as (entry & Hentry & Hdescr).
  destruct (commit_spec
              (with_servers fields
                 (dict_set alias
                    (descriptor_of now transport description command
                       args_value url env_value) servers))
              "registry_add" ("alias=" ++ alias ++ " transport=" ++ transport)
              (added_text alias transport) (log EMkdirs w))
    as (w' & Hcommit & Hfile & Htrace & Hstable).
  exists w'. split; [ | split; [exact Hfile | split]].
  - unfold registry_add. rewrite H1, H2, H3.
    rewrite (bind_return _ _ _ _ _ (load_registry_value _ _ Hreg)).
    rewrite (bind_return _ _ _ _ _ Hentry).
    rewrite Hdescr.
    assert (Hstore :
              lift (store_entry (JObj fields) alias
                      (descriptor_of now transport description command
                         args_value url env_value)) (log EMkdirs w) =
              (Return (with_servers fields
                         (dict_set alias
                            (descriptor_of now transport description command
                               args_value url env_value) servers)),
               log EMkdirs w))
      by (unfold lift; rewrite (store_entry_spec _ _ _ _ Hservers);
          reflexivity).
    rewrite (bind_return _ _ _ _ _ Hstore).
    exact Hcommit.
  - rewrite Htrace. simpl. unfold append. rewrite <- app_assoc. reflexivity.
  - exact Hstable.
Qed.

(** A run of [registry_remove] on a registered alias. *)
Lemma registry_remove_run alias w fields servers descriptor :
  registry_of w = Some (JObj fields) ->
  lookup "servers" fields = Some (JObj servers) ->
  lookup alias servers = Some descriptor ->
  exists w',
    registry_remove alias w = (Return (removed_text alias), w') /\
    registry_file w' =
    Some (json_dumps_indent (with_servers fields (dict_del alias servers))) /\
    trace w' =
    (trace w ++ [EMkdirs; EMkdirs; EMkdirs;
                 EAudit "registry_remove" ("alias=" ++ alias)])%list /\
    stable_but_file w w'.
Proof.
  intros Hreg Hservers Halias.
  destruct (commit_spec (with_servers fields (dict_del alias servers))
              "registry_remove" ("alias=" ++ alias) (removed_text alias)
              (log EMkdirs w))
    as (w' & Hcommit & Hfile & Htrace & Hstable).
  exists w'. split; [ | split; [exact Hfile | split]].
  - unfold registry_remove.
    rewrite (bind_return _ _ _ _ _ (load_registry_value _ _ Hreg)).
    assert (Hget :
              lift (py_getitem (JObj fields) "servers") (log EMkdirs w) =
              (Return (JObj servers), log EMkdirs w))
      by (unfold lift, py_getitem; rewrite Hservers; reflexivity).
    rewrite (bind_return _ _ _ _ _ Hget).
    assert (Hin :
              lift (py_in alias (JObj servers)) (log EMkdirs w) =
              (Return true, log EMkdirs w))
      by (unfold lift, py_in, has_key; rewrite Halias; reflexivity).
    rewrite (bind_return _ _ _ _ _ Hin). cbn [negb].
    assert (Hdrop :
              lift (drop_entry (JObj fields) alias) (log EMkdirs w) =
              (Return (with_servers fields (dict_del alias servers)),
               log EMkdirs w))
      by (unfold lift;
          rewrite (drop_entry_spec _ _ _ _ Hservers Halias); reflexivity).
    rewrite (bind_return _ _ _ _ _ Hdrop).
    exact Hcommit.
  - rewrite Htrace. simpl. unfold append. rewrite <- app_assoc. reflexivity.
  - exact Hstable.
Qed.

(** [registry_add] with a descriptor that keeps the invariant of the data
    model, on a registry that can be read and written back: the alias
    then resolves to the descriptor built from the arguments, every other
    alias resolves to what it did, and the stored descriptor keeps the
    invariant. *)
Theorem registry_add_stores_descriptor
  now alias transport command args url env description w fields servers
  args_value env_value :
  invariant_ok transport command url = true ->
  registry_of w = Some (JObj fields) ->
  lookup "servers" fields = Some (JObj servers) ->
  decoded args = Some args_value ->
  decoded env = Some env_value ->
  let descriptor :=
    descriptor_of now transport description command args_value url
      env_value in
  round_trips (with_servers fields (dict_set alias descriptor servers)) ->
  exists w',
    registry_add now alias transport command args url env description w =
    (Return (added_text alias transport), w') /\
    resolve w' alias = Some descriptor /\
    (forall other, other <> alias -> resolve w' other = resolve w other) /\
    descriptor_ok descriptor = true.
Proof.
  intros Hok Hreg Hservers Hargs Henv descriptor Hrt.
  destruct (registry_add_run now alias transport command args url env
              description w fields servers args_value env_value
              Hok Hreg Hservers Hargs Henv)
    as (w' & Hrun & Hfile & _ & _).
  pose proof (servers_of_written _ _ _ Hfile Hrt) as Hafter.
  pose proof (servers_of_registry _ _ _ Hreg Hservers) as Hbefore.
  exists w'. split; [exact Hrun | split; [ | split]].
  - rewrite (resolve_servers _ _ _ Hafter). apply lookup_dict_set_same.
  - intros other Hneq.
    rewrite (resolve_servers _ _ _ Hafter), (resolve_servers _ _ _ Hbefore).
    apply lookup_dict_set_other. exact Hneq.
  - apply descriptor_of_ok. exact Hok.
Qed.

(** [registry_add] with a descriptor that breaks the invariant (a
    transport that is neither [stdio] nor [sse], [stdio] with no command
    or an empty one, [sse] with no url or an empty one): it answers with
    an error line and has touched nothing, not even read the registry. *)
Theorem registry_add_refuses_invalid
  now alias transport command args url env description w :
  invariant_ok transport command url = false ->
  exists msg,
    registry_add now alias transport command args url env description w =
    (Return msg, w) /\
    is_prefix "Error: " msg = true.
Proof.
  unfold invariant_ok, is_given, registry_add.
  destruct (String.eqb transport "stdio") eqn:Hstdio;
    destruct (String.eqb transport "sse") eqn:Hsse;
    destruct (given command); destruct (given url);
    simpl; intros H; try discriminate;
    eexists; split; reflexivity.
Qed.

(** [registry_add] with [args] or [env] that is not JSON: the decode
    error gets out of it, and the registry file is as it was. *)
Theorem registry_add_undecodable_writes_nothing
  now alias transport command args url env description w registry :
  invariant_ok transport command url = true ->
  registry_of w = Some registry ->
  decoded args = None \/ decoded env = None ->
  registry_add now alias transport command args url env description w =
  (Raise JSONDecodeError, log EMkdirs w).
Proof.
  intros Hok Hreg Hbad.
  destruct (validation_passes _ _ _ Hok) as (H1 & H2 & H3).
  unfold registry_add. rewrite H1, H2, H3.
  rewrite (bind_return _ _ _ _ _ (load_registry_value _ _ Hreg)).
  rewrite (bind_raise _ _ _ _ _
             (registry_entry_undecodable now transport description command
                args url env (log EMkdirs w) Hbad)).
  reflexivity.
Qed.

(** [registry_remove]: an alias the registry does not hold is answered
    with the not-found line and nothing is written; an alias it holds
    resolves to nothing afterwards, and every other alias to what it
    did. *)
Theorem registry_remove_drops_descriptor :
  (forall alias w servers,
      servers_of w = Some servers ->
      lookup alias servers = None ->
      registry_remove alias w =
      (Return ("Server '" ++ alias ++ "' not found in registry."),
       log EMkdirs w)) /\
  (forall alias w fields servers descriptor,
      registry_of w = Some (JObj fields) ->
      lookup "servers" fields = Some (JObj servers) ->
      lookup alias servers = Some descriptor ->
      round_trips (with_servers fields (dict_del alias servers)) ->
      exists w',
        registry_remove alias w = (Return (removed_text alias), w') /\
        resolve w' alias = None /\
        (forall other, other <> alias ->
                       resolve w' other = resolve w other)).
Proof.
  split.
  - intros alias w servers Hservers Habsent.
    destruct (load_registry_spec _ _ Hservers) as (registry & Hload & Hget).
    unfold registry_remove, bind, lift. rewrite Hload, Hget. simpl.
    unfold has_key. rewrite Habsent. reflexivity.
  - intros alias w fields servers descriptor Hreg Hservers Halias Hrt.
    destruct (registry_remove_run _ _ _ _ _ Hreg Hservers Halias)
      as (w' & Hrun & Hfile & _ & _).
    pose proof (servers_of_written _ _ _ Hfile Hrt) as Hafter.
    pose proof (servers_of_registry _ _ _ Hreg Hservers) as Hbefore.
    exists w'. split; [exact Hrun | split].
    + rewrite (resolve_servers _ _ _ Hafter). apply lookup_dict_del_same.
    + intros other Hneq.
      rewrite (resolve_servers _ _ _ Hafter), (resolve_servers _ _ _ Hbefore).
      apply lookup_dict_del_other. exact Hneq.
Qed.

(** Adding a server under an alias that was free and removing it again
    leaves the registry as it was: the file then decodes to the registry
    that was read in the first place. *)
Theorem registry_add_then_remove_restores
  now alias transport command args url env description w fields servers
  args_value env_value :
  invariant_ok transport command url = true ->
  registry_of w = Some (JObj fields) ->
  lookup "servers" fields = Some (JObj servers) ->
  lookup alias servers = None ->
  decoded args = Some args_value ->
  decoded env = Some env_value ->
  round_trips
    (with_servers fields
       (dict_set alias
          (descriptor_of now transport description command args_value url
             env_value) servers)) ->
  round_trips (JObj fields) ->
  exists w' w'',
    registry_add now alias transport command args url env description w =
    (Return (added_text alias transport), w') /\
    registry_remove alias w' = (Return (removed_text alias), w'') /\
    registry_of w'' = registry_of w.
Proof.
  intros Hok Hreg Hservers Hfresh Hargs Henv Hrt1 Hrt0.
  destruct (registry_add_run now alias transport command args url env
              description w fields servers args_value env_value
              Hok Hreg Hservers Hargs Henv)
    as (w' & Hadd & Hfile' & _ & _).
  pose proof (registry_of_written _ _ Hfile' Hrt1) as Hreg'.
  unfold with_servers in Hreg'.
  destruct (registry_remove_run alias w' _ _ _ Hreg'
              (lookup_dict_set_same "servers" _ fields)
              (lookup_dict_set_same alias _ servers))
    as (w'' & Hremove & Hfile'' & _ & _).
  exists w', w''. split; [exact Hadd | split; [exact Hremove | ]].
  rewrite Hreg. apply registry_of_written; [ | exact Hrt0].
  rewrite Hfile''. unfold with_servers.
  rewrite (dict_del_set_fresh _ _ _ Hfresh), dict_set_set,
    (dict_set_same _ _ _ Hservers).
  reflexivity.
Qed.

(* ===================================================================== *)
(** ** The registry store: listing and status *)
(* ===================================================================== *)

Lemma registry_line_spec alias fields :
  has_key "transport" fields = true ->
  registry_line alias (JObj fields) = Return (listing (alias, JObj fields)).
Proof.
  unfold has_key, registry_line, listing, py_getitem, field_or.
  rewrite !py_get_obj. unfold field_or. simpl.
  destruct (lookup "transport" fields); [ | discriminate].
  reflexivity.
Qed.

Lemma registry_lines_spec items : forall lines,
  forallb listable items = true ->
  registry_lines items lines = Return (lines ++ map listing items)%list.
Proof.
  induction items as [| [alias info] rest IH]; intros lines Hall; simpl.
  - rewrite app_nil_r. reflexivity.
  - simpl in Hall. apply andb_true_iff in Hall. destruct Hall as [Hitem Hrest].
    unfold listable in Hitem. simpl in Hitem.
    destruct info as [| | | | | | fields]; try discriminate.
    rewrite (registry_line_spec alias fields Hitem). simpl.
    rewrite (IH _ Hrest). unfold append. rewrite <- app_assoc. reflexivity.
Qed.

(** [registry_list] on a registry whose descriptors are mappings with a
    transport: the sentinel line when there is no server, otherwise the
    header and one line per server in the order of the registry, each with
    its alias, its transport, [managed] or [external] and its
    description; nothing is written. *)
Theorem registry_list_lines w servers :
  servers_of w = Some servers ->
  forallb listable servers = true ->
  registry_list w =
  (Return (match servers with
           | [] => no_servers_line
           | _ :: _ =>
               "Registered servers:" ++ nl ++ join nl (map listing servers)
           end),
   log EMkdirs w).
Proof.
  intros Hservers Hall.
  destruct (load_registry_spec _ _ Hservers) as (registry & Hload & Hget).
  unfold registry_list, bind, lift. rewrite Hload, Hget.
  destruct servers as [| item rest]; [reflexivity | ].
  cbn [truthy negb py_items].
  rewrite (registry_lines_spec _ [] Hall). reflexivity.
Qed.

Lemma status_lines_same d1 d2 :
  same_but_env d1 d2 ->
  forall lines, status_lines d1 lines = status_lines d2 lines.
Proof.
  induction 1 as [| k v d1 d2 Hsame IH | v1 v2 d1 d2 Hlen Hsame IH];
    intros lines; simpl.
  - reflexivity.
  - destruct (status_line k v) as [l | e]; simpl; [apply IH | reflexivity].
  - unfold status_line. simpl. rewrite Hlen.
    destruct (py_len v2) as [n | e]; simpl; [apply IH | reflexivity].
Qed.

(** [server_status] shows of [env] only how many variables it holds: two
    registries whose descriptors for [name] differ in nothing but the
    contents of [env] get the same answer. *)
Theorem server_status_redacts_env name w1 w2 servers1 servers2 d1 d2 :
  servers_of w1 = Some servers1 ->
  lookup name servers1 = Some (JObj d1) ->
  servers_of w2 = Some servers2 ->
  lookup name servers2 = Some (JObj d2) ->
  same_but_env d1 d2 ->
  fst (server_status name w1) = fst (server_status name w2).
Proof.
  intros Hs1 Hl1 Hs2 Hl2 Hsame.
  destruct (load_registry_spec _ _ Hs1) as (r1 & Hload1 & Hget1).
  destruct (load_registry_spec _ _ Hs2) as (r2 & Hload2 & Hget2).
  unfold server_status, bind, lift.
  rewrite Hload1, Hget1, Hload2, Hget2. simpl.
  unfold has_key. rewrite Hl1, Hl2. simpl.
  rewrite (status_lines_same _ _ Hsame).
  match goal with
  | |- context [status_lines d2 ?l] => destruct (status_lines d2 l)
  end; reflexivity.
Qed.

End RegistryFacts.

(* ===================================================================== *)
(** ** What a call does to the outside *)
(* ===================================================================== *)

Section TraceFacts.

Context {rt : Runtime}.

Lemma emits_ret {A} ok (a : A) : emits ok (ret a).
Proof. intros w. exists []. rewrite app_nil_r. split; reflexivity. Qed.

Lemma emits_raise {A} ok e : emits ok (@raise A e).
Proof. intros w. exists []. rewrite app_nil_r. split; reflexivity. Qed.

Lemma emits_lift {A} ok (r : result A) : emits ok (lift r).
Proof. intros w. exists []. rewrite app_nil_r. split; reflexivity. Qed.

Lemma emits_bind {A B} ok (m : M A) (k : A -> M B) :
  emits ok m -> (forall a, emits ok (k a)) -> emits ok (bind m k).
Proof.
  intros Hm Hk w. unfold bind.
  destruct (Hm w) as (evs1 & Ht1 & Hok1).
  destruct (m w) as [[a | e] w1]; simpl in *.
  - destruct (Hk a w1) as (evs2 & Ht2 & Hok2).
    exists (evs1 ++ evs2)%list. rewrite Ht2, Ht1, app_assoc.
    split; [reflexivity | ]. rewrite forallb_app, Hok1, Hok2. reflexivity.
  - exists evs1. auto.
Qed.

Lemma emits_try_except {A} ok (body : M A) handler :
  emits ok body -> (forall e, emits ok (handler e)) ->
  emits ok (try_except body handler).
Proof.
  intros Hb Hh w. unfold try_except.
  destruct (Hb w) as (evs1 & Ht1 & Hok1).
  destruct (body w) as [[a | e] w1]; simpl in *.
  - exists evs1. auto.
  - destruct (Hh e w1) as (evs2 & Ht2 & Hok2).
    exists (evs1 ++ evs2)%list. rewrite Ht2, Ht1, app_assoc.
    split; [reflexivity | ]. rewrite forallb_app, Hok1, Hok2. reflexivity.
Qed.

Lemma emits_try_finally {A} ok (body : M A) fin :
  emits ok body -> emits ok fin -> emits ok (try_finally body fin).
Proof.
  intros Hb Hf w. unfold try_finally.
  destruct (Hb w) as (evs1 & Ht1 & Hok1).
  destruct (body w) as [r w1]; simpl in *.
  destruct (Hf w1) as (evs2 & Ht2 & Hok2).
  exists (evs1 ++ evs2)%list.
  destruct (fin w1) as [[u | e] w2]; simpl in *;
    rewrite Ht2, Ht1, app_assoc;
    (split; [reflexivity | ]); rewrite forallb_app, Hok1, Hok2; reflexivity.
Qed.

(** A step that logs one event and does not touch the trace otherwise. *)
Lemma emits_one {A} (ok : Event -> bool) (m : M A) ev :
  ok ev = true ->
  (forall w, trace (snd (m w)) = (trace w ++ [ev])%list) ->
  emits ok m.
Proof.
  intros Hok Hm w. exists [ev]. split; [apply Hm | ].
  simpl. rewrite Hok. reflexivity.
Qed.

Lemma emits_stdin_write ok proc data :
  ok (ESend proc data) = true -> emits ok (stdin_write proc data).
Proof.
  intros Hok. apply (emits_one ok _ (ESend proc data) Hok).
  intros w. unfold stdin_write. simpl.
  destruct (stdin_script w) as [| [e |] rest]; reflexivity.
Qed.

Lemma emits_stdout_readline ok proc timeout :
  ok (ERecv proc timeout) = true -> emits ok (stdout_readline proc timeout).
Proof.
  intros Hok. apply (emits_one ok _ (ERecv proc timeout) Hok).
  intros w. unfold stdout_readline. simpl.
  destruct (stdout_script w) as [| [d | | e] rest]; reflexivity.
Qed.

Lemma emits_loads ok text : emits ok (loads text).
Proof.
  unfold loads. destruct (json_loads text);
    [apply emits_ret | apply emits_raise].
Qed.

Lemma emits_stdio_exchange pid method params formatter :
  emits (child_event pid) (stdio_exchange pid method params formatter).
Proof.
  assert (Hsend : forall data, child_event pid (ESend pid data) = true)
    by (intros; unfold child_event; simpl; apply Nat.eqb_refl).
  assert (Hrecv : forall t, child_event pid (ERecv pid t) = true)
    by (intros; unfold child_event; simpl; apply Nat.eqb_refl).
  unfold stdio_exchange, _send_jsonrpc, _send_notification, _read_jsonrpc.
  apply emits_bind; [apply emits_stdin_write, Hsend | intros _].
  apply emits_bind;
    [apply emits_bind;
     [apply emits_stdout_readline, Hrecv | intros; apply emits_loads]
    | intros _].
  apply emits_bind; [apply emits_stdin_write, Hsend | intros _].
  apply emits_bind; [apply emits_stdin_write, Hsend | intros _].
  apply emits_bind;
    [apply emits_bind;
     [apply emits_stdout_readline, Hrecv | intros; apply emits_loads]
    | intros resp].
  apply emits_bind; [apply emits_lift | intros has_error].
  destruct has_error.
  - apply emits_bind; [apply emits_lift | intros; apply emits_ret].
  - apply emits_bind; [apply emits_lift | intros; apply emits_lift].
Qed.

(** Everything the process transport does to the outside: nothing, or a
    spawn followed by events on the process it started; and no process
    is left that was not there. *)
Lemma stdio_request_effects server method params formatter w :
  (trace (snd (_stdio_request server method params formatter w)) = trace w \/
   exists cmd env rest,
     trace (snd (_stdio_request server method params formatter w)) =
     (trace w ++ ESpawn cmd env :: rest)%list /\
     forallb (child_event (next_pid w)) rest = true) /\
  (forall p,
      In p (running (snd (_stdio_request server method params formatter w))) ->
      In p (running w)).
Proof.
  unfold _stdio_request, bind, lift.
  destruct (command_line server) as [cmd | e]; [ | split; [left | ]; auto].
  destruct (child_env (environ w) server) as [env | e];
    [ | split; [left | ]; auto].
  destruct (create_subprocess_exec cmd env w) as [[pid | e] w1] eqn:Hspawn.
  - destruct (spawn_inv _ _ _ _ _ Hspawn) as [Hpid Hw1].
    destruct (stdio_exchange pid method params formatter w1) as [r w2]
      eqn:Hbody.
    destruct (try_finally_cleanup _ pid _ _ _ Hbody)
      as (w' & Hcall & Htrace & Hrun).
    rewrite Hcall. simpl.
    destruct (emits_stdio_exchange pid method params formatter w1)
      as (evs & Hevs & Hok).
    rewrite Hbody in Hevs. simpl in Hevs.
    pose proof (quiet_stdio_exchange pid method params formatter w1) as Hq.
    rewrite Hbody in Hq. destruct Hq as (_ & _ & _ & _ & _ & _ & _ & Hsame).
    simpl in Hsame. split.
    + right. exists cmd, env.
      exists (evs ++ ETerminate pid :: EWait pid 5
                :: (if exits_on_sigterm w2 then [] else [EKill pid]))%list.
      split.
      * rewrite Htrace, Hevs. subst w1. simpl. unfold append.
        rewrite <- !app_assoc. reflexivity.
      * rewrite forallb_app. rewrite <- Hpid, Hok. simpl.
        unfold child_event. simpl. rewrite Nat.eqb_refl.
        destruct (exits_on_sigterm w2); simpl; rewrite ?Nat.eqb_refl;
          reflexivity.
    + intros p Hp. rewrite Hrun, Hsame in Hp.
      apply filter_In in Hp. destruct Hp as [Hin Hneq].
      subst w1. simpl in Hin. destruct Hin as [Heq | Hin]; [ | exact Hin].
      subst p pid. rewrite Nat.eqb_refl in Hneq. discriminate.
  - simpl. unfold create_subprocess_exec in Hspawn.
    destruct (forallb is_str cmd && forallb (fun kv => is_str (snd kv)) env).
    + simpl in Hspawn. destruct (spawn_script w); inversion Hspawn.
      split; [ | auto]. right. exists cmd, env, []. split; reflexivity.
    + inversion Hspawn. split; [left | ]; auto.
Qed.

(** Everything the remote transport does to the outside: at most one
    POST; the running processes are as they were. *)
Lemma sse_request_effects server method params formatter w :
  (trace (snd (_sse_request server method params formatter w)) = trace w \/
   exists url headers body,
     trace (snd (_sse_request server method params formatter w)) =
     (trace w ++ [EPost url headers body])%list) /\
  running (snd (_sse_request server method params formatter w)) = running w /\
  next_pid (snd (_sse_request server method params formatter w)) = next_pid w.
Proof.
  split.
  - destruct (sse_request_trace server method params formatter w)
      as [Hsame | (url & headers & _ & Hpost)].
    + left. exact Hsame.
    + right. exists url, headers, (jsonrpc_request 1 method params).
      exact Hpost.
  - unfold _sse_request, loads, bind, lift, http_post, ret, raise. simpl.
    destruct (httpx_installed w); [ | split; reflexivity].
    destruct (endpoint server) as [url | e]; [ | split; reflexivity].
    destruct (auth_headers server) as [headers | e]; [ | split; reflexivity].
    simpl.
    destruct (http_script w) as [body | e]; [ | split; reflexivity].
    destruct (json_loads body) as [data |]; [ | split; reflexivity].
    destruct (py_in "error" data) as [[|] | e]; [ | | split; reflexivity].
    + destruct (py_getitem data "error"); split; reflexivity.
    + destruct (py_get data "result" (JObj [])); split; reflexivity.
Qed.

Lemma transport_run_refl w : transport_run w w.
Proof.
  split; [ | auto]. exists []. rewrite app_nil_r. split; reflexivity.
Qed.

Lemma stdio_request_run server method params formatter w :
  transport_run w (snd (_stdio_request server method params formatter w)).
Proof.
  destruct (stdio_request_effects server method params formatter w)
    as [[Hsame | (cmd & env & rest & Htrace & Hok)] Hrun];
    (split; [ | exact Hrun]).
  - exists []. rewrite app_nil_r. split; [exact Hsame | reflexivity].
  - exists (ESpawn cmd env :: rest). split; [exact Htrace | ].
    simpl. unfold transport_event. simpl.
    apply forallb_forall. intros ev Hin.
    rewrite forallb_forall in Hok. rewrite (Hok ev Hin).
    apply orb_true_r.
Qed.

Lemma sse_request_run server method params formatter w :
  transport_run w (snd (_sse_request server method params formatter w)).
Proof.
  destruct (sse_request_effects server method params formatter w)
    as [[Hsame | (url & headers & body & Htrace)] [Hrun _]];
    (split; [ | rewrite Hrun; auto]).
  - exists []. rewrite app_nil_r. split; [exact Hsame | reflexivity].
  - exists [EPost url headers body]. split; [exact Htrace | reflexivity].
Qed.

Lemma discover_try_run server w :
  transport_run w (snd (discover_try server w)).
Proof.
  unfold discover_try, bind, lift.
  destruct (py_getitem server "transport") as [transport | e];
    [ | apply transport_run_refl].
  destruct (eq_str transport "stdio"); [apply stdio_request_run | ].
  destruct (eq_str transport "sse"); [apply sse_request_run | ].
  apply transport_run_refl.
Qed.

Lemma call_try_run server tool_name args_dict w :
  transport_run w (snd (call_try server tool_name args_dict w)).
Proof.
  unfold call_try, bind, lift.
  destruct (py_getitem server "transport") as [transport | e];
    [ | apply transport_run_refl].
  destruct (eq_str transport "stdio"); [apply stdio_request_run | ].
  destruct (eq_str transport "sse"); [apply sse_request_run | ].
  apply transport_run_refl.
Qed.

Lemma try_except_world {A} (body : M A) handler w :
  (forall e w1, snd (handler e w1) = w1) ->
  snd (try_except body handler w) = snd (body w).
Proof.
  intros Hh. unfold try_except.
  destruct (body w) as [[a | e] w1]; simpl; [reflexivity | apply Hh].
Qed.

Lemma discover_except_world alias e w : snd (discover_except alias e w) = w.
Proof. destruct e; reflexivity. Qed.

Lemma call_except_world alias tool_name e w :
  snd (call_except alias tool_name e w) = w.
Proof. destruct e; reflexivity. Qed.

(** Where [remote_discover] leaves the world: where reading the registry
    left it, or where the [try] block left it from there. *)
Lemma remote_discover_world alias w :
  snd (remote_discover alias w) = log EMkdirs w \/
  exists server,
    snd (remote_discover alias w) = snd (discover_try server (log EMkdirs w)).
Proof.
  unfold remote_discover, _load_registry, bind, _ensure_dirs, loads, lift,
    ret, raise.
  simpl.
  destruct (registry_file w) as [text |].
  - destruct (json_loads text) as [registry |]; [ | left; reflexivity].
    destruct (py_getitem registry "servers") as [servers | e];
      [ | left; reflexivity].
    destruct (py_in alias servers) as [[|] | e]; simpl;
      [ | left; reflexivity | left; reflexivity].
    destruct (py_getitem servers alias) as [server | e];
      [ | left; reflexivity].
    right. exists server. apply try_except_world.
    apply discover_except_world.
  - simpl. destruct (String.eqb alias "servers"); left; reflexivity.
Qed.

Lemma remote_call_world alias tool_name arguments w :
  snd (remote_call alias tool_name arguments w) = log EMkdirs w \/
  exists server args_dict,
    snd (remote_call alias tool_name arguments w) =
    snd (call_try server tool_name args_dict
           (audited alias tool_name arguments w)).
Proof.
  unfold remote_call, _load_registry, _audit, bind, _ensure_dirs, loads,
    lift, ret, raise.
  simpl.
  destruct (registry_file w) as [text |].
  - destruct (json_loads text) as [registry |]; [ | left; reflexivity].
    destruct (py_getitem registry "servers") as [servers | e];
      [ | left; reflexivity].
    destruct (py_in alias servers) as [[|] | e]; simpl;
      [ | left; reflexivity | left; reflexivity].
    destruct (py_getitem servers alias) as [server | e];
      [ | left; reflexivity].
    destruct (json_loads arguments) as [args_dict |]; [ | left; reflexivity].
    right. exists server, args_dict. apply try_except_world.
    apply call_except_world.
  - simpl. destruct (String.eqb alias "servers"); left; reflexivity.
Qed.

(** Whatever the alias, the registry, the descriptor and the behaviour of
    the child or of the endpoint, and whether they answer with a result,
    an error text or an exception: every process that runs after
    [remote_discover] or [remote_call] ran before it. *)
Theorem facade_leaves_no_process alias tool_name arguments w :
  (forall p, In p (running (snd (remote_discover alias w))) ->
             In p (running w)) /\
  (forall p,
      In p (running (snd (remote_call alias tool_name arguments w))) ->
      In p (running w)).
Proof.
  split.
  - destruct (remote_discover_world alias w) as [Hw | [server Hw]];
      rewrite Hw; [auto | ].
    intros p Hp. apply (discover_try_run server (log EMkdirs w)) in Hp.
    exact Hp.
  - destruct (remote_call_world alias tool_name arguments w)
      as [Hw | (server & args_dict & Hw)]; rewrite Hw; [auto | ].
    intros p Hp.
    apply (call_try_run server tool_name args_dict
             (audited alias tool_name arguments w)) in Hp.
    exact Hp.
Qed.

(** What the facade does to the outside, in order.  [remote_discover]
    makes sure of the registry's directories and then does only what a
    transport does: it writes no audit line.  [remote_call] either stops
    after reading the registry or writes exactly one audit line, and
    that before anything is spawned or posted.  Every write, read,
    signal and wait of either is on the process the call has started
    itself. *)
Theorem facade_audits_calls_before_dispatch alias tool_name arguments w :
  (exists evs,
      trace (snd (remote_discover alias w)) =
      (trace w ++ EMkdirs :: evs)%list /\
      forallb (transport_event (next_pid w)) evs = true) /\
  (trace (snd (remote_call alias tool_name arguments w)) =
   (trace w ++ [EMkdirs])%list \/
   exists evs,
     trace (snd (remote_call alias tool_name arguments w)) =
     (trace w
      ++ [EMkdirs; EMkdirs;
          EAudit "remote_call"
                 ("alias=" ++ alias ++ " tool=" ++ tool_name
                  ++ " args=" ++ arguments)]
      ++ evs)%list /\
     forallb (transport_event (next_pid w)) evs = true).
Proof.
  split.
  - destruct (remote_discover_world alias w) as [Hw | [server Hw]];
      rewrite Hw.
    + exists []. split; reflexivity.
    + destruct (discover_try_run server (log EMkdirs w))
        as [(evs & Htrace & Hok) _].
      exists evs. split; [ | exact Hok].
      rewrite Htrace. simpl. unfold append. rewrite <- app_assoc.
      reflexivity.
  - destruct (remote_call_world alias tool_name arguments w)
      as [Hw | (server & args_dict & Hw)]; rewrite Hw.
    + left. reflexivity.
    + right.
      destruct (call_try_run server tool_name args_dict
                  (audited alias tool_name arguments w))
        as [(evs & Htrace & Hok) _].
      exists evs. split; [ | exact Hok].
      rewrite Htrace. simpl. unfold append. rewrite <- !app_assoc.
      reflexivity.
Qed.

(** A descriptor whose transport is neither [stdio] nor [sse]: both
    facade functions say so and start nothing. *)
Theorem unknown_transport_starts_nothing
  alias tool_name arguments w servers fields transport args_dict :
  servers_of w = Some servers ->
  lookup alias servers = Some (JObj fields) ->
  lookup "transport" fields = Some transport ->
  eq_str transport "stdio" = false ->
  eq_str transport "sse" = false ->
  json_loads arguments = Some args_dict ->
  remote_discover alias w =
  (Return ("Unknown transport: " ++ py_str transport), log EMkdirs w) /\
  remote_call alias tool_name arguments w =
  (Return ("Unknown transport: " ++ py_str transport),
   audited alias tool_name arguments w).
Proof.
  intros Hservers Hlookup Ht Hstdio Hsse Hargs. split.
  - rewrite (remote_discover_known _ _ _ _ Hservers Hlookup).
    unfold try_except, discover_try, bind, lift, py_getitem.
    rewrite Ht, Hstdio, Hsse. reflexivity.
  - rewrite (remote_call_known _ tool_name _ _ _ _ _ Hservers Hlookup Hargs).
    unfold try_except, call_try, bind, lift, py_getitem.
    rewrite Ht, Hstdio, Hsse. reflexivity.
Qed.

(** The first thing the process transport does once it has a command
    line and an environment made of strings is to ask for the spawn. *)
Lemma stdio_request_spawns_first server method params formatter w cmd env :
  command_line server = Return cmd ->
  child_env (environ w) server = Return env ->
  forallb is_str cmd = true ->
  str_values env = true ->
  exists rest,
    trace (snd (_stdio_request server method params formatter w)) =
    (trace w ++ ESpawn cmd env :: rest)%list.
Proof.
  intros Hcmd Henv Hc He.
  unfold _stdio_request, bind, lift. rewrite Hcmd, Henv.
  unfold create_subprocess_exec. unfold str_values in He. rewrite Hc, He.
  simpl.
  destruct (spawn_script w) as [e |]; [exists []; reflexivity | ].
  destruct (stdio_exchange (next_pid w) method params formatter
              (start_child (log (ESpawn cmd env) w))) as [r2 w2] eqn:Hbody.
  destruct (try_finally_cleanup _ (next_pid w) _ _ _ Hbody)
    as (w3 & Hcall & Ht3 & _).
  destruct (emits_stdio_exchange (next_pid w) method params formatter
              (start_child (log (ESpawn cmd env) w))) as (evs & Hevs & _).
  rewrite Hbody in Hevs. simpl in Hevs.
  rewrite Hcall. simpl. rewrite Ht3, Hevs. unfold append.
  rewrite <- !app_assoc. eexists. reflexivity.
Qed.

End TraceFacts.

(* ===================================================================== *)
(** ** The registry store and the proxy together *)
(* ===================================================================== *)

Section StoreAndProxy.

Context {rt : Runtime} {pp : Printer}.

Lemma lookup_absent k (d : list (string * json)) :
  ~ In k (map fst d) -> lookup k d = None.
Proof.
  induction d as [| [k' v] d IH]; simpl; [reflexivity | ].
  intros Hnot. destruct (String.eqb k k') eqn:Hk.
  - apply String.eqb_eq in Hk. subst k'. exfalso. apply Hnot. left.
    reflexivity.
  - apply IH. intros Hin. apply Hnot. right. exact Hin.
Qed.

Lemma lookup_dict_merge b : forall a k,
  NoDup (map fst b) ->
  lookup k (dict_merge a b) =
  match lookup k b with
  | Some v => Some v
  | None => lookup k a
  end.
Proof.
  unfold dict_merge.
  induction b as [| [k1 v1] b IH]; intros a k Hnodup; simpl;
    [reflexivity | ].
  inversion Hnodup as [| ? ? Hnotin Hrest]. subst.
  rewrite (IH _ _ Hrest).
  destruct (String.eqb k k1) eqn:Hk.
  - apply String.eqb_eq in Hk. subst k1.
    rewrite (lookup_absent _ _ Hnotin). apply lookup_dict_set_same.
  - apply String.eqb_neq in Hk.
    rewrite (lookup_dict_set_other _ _ _ _ Hk). reflexivity.
Qed.

(** The environment of the child: the ambient environment with the
    descriptor's [env] laid over it; a variable of [env] wins over the
    ambient one of the same name, every other ambient variable is passed
    on.  An [env] that is not a mapping is a [TypeError]. *)
Theorem child_env_overrides ambient fields :
  (forall d,
      env_dict (lookup "env" fields) = Some d ->
      NoDup (map fst d) ->
      exists env,
        child_env ambient (JObj fields) = Return env /\
        forall k,
          lookup k env =
          match lookup k d with
          | Some v => Some v
          | None => lookup k (ambient_env ambient)
          end) /\
  (forall v,
      lookup "env" fields = Some v ->
      is_obj v = false ->
      child_env ambient (JObj fields) = Raise TypeError).
Proof.
  split.
  - intros d Hd Hnodup.
    exists (dict_merge (ambient_env ambient) d). split.
    + unfold child_env, py_get, env_dict in *.
      destruct (lookup "env" fields) as [[| | | | | | d'] |];
        try discriminate; inversion Hd; reflexivity.
    + intros k. apply lookup_dict_merge. exact Hnodup.
  - intros v Hv Hobj. unfold child_env, py_get. rewrite Hv.
    destruct v; try reflexivity. discriminate.
Qed.

Lemma str_values_dict_set k v d :
  is_str v = true -> str_values d = true ->
  str_values (dict_set k v d) = true.
Proof.
  unfold str_values. intros Hv.
  induction d as [| [k' v'] d IH]; simpl.
  - intros _. rewrite Hv. reflexivity.
  - intros H. apply andb_true_iff in H. destruct H as [H1 H2].
    destruct (String.eqb k k'); simpl.
    + rewrite Hv, H2. reflexivity.
    + rewrite H1, (IH H2). reflexivity.
Qed.

Lemma str_values_dict_merge b : forall a,
  str_values a = true -> str_values b = true ->
  str_values (dict_merge a b) = true.
Proof.
  unfold dict_merge.
  induction b as [| [k v] b IH]; intros a Ha Hb; simpl; [exact Ha | ].
  unfold str_values in Hb. simpl in Hb. apply andb_true_iff in Hb.
  destruct Hb as [Hv Hb]. apply IH; [ | exact Hb].
  apply str_values_dict_set; assumption.
Qed.

Lemma str_values_ambient ambient : str_values (ambient_env ambient) = true.
Proof.
  unfold str_values, ambient_env.
  induction ambient as [| kv rest IH]; simpl; [reflexivity | exact IH].
Qed.

(** What the transport makes of a descriptor stored by [registry_add]. *)
Lemma stored_command_line
  now description command c args_value l url env_value :
  given command = Some c ->
  arg_list args_value = Some l ->
  command_line (descriptor_of now "stdio" description command args_value url
                  env_value) =
  Return (JStr c :: l).
Proof.
  intros Hc Hl.
  unfold command_line, descriptor_of, py_getitem, py_get, arg_list in *.
  rewrite Hc.
  destruct args_value as [[| | | | | l' |] |]; try discriminate;
    inversion Hl; subst;
    destruct (given url); destruct env_value; reflexivity.
Qed.

Lemma stored_child_env
  now description command c args_value url env_value d ambient :
  given command = Some c ->
  env_dict env_value = Some d ->
  child_env ambient
    (descriptor_of now "stdio" description command args_value url env_value) =
  Return (dict_merge (ambient_env ambient) d).
Proof.
  intros Hc Hd.
  unfold child_env, descriptor_of, py_get, env_dict in *.
  rewrite Hc.
  destruct env_value as [[| | | | | | d'] |]; try discriminate;
    inversion Hd; subst;
    destruct args_value; destruct (given url); reflexivity.
Qed.

(** What [registry_add] stores is what [remote_discover] runs: after a
    process server has been registered under [alias], discovering
    [alias] asks first of all for the spawn of the registered command
    followed by the registered arguments, in the ambient environment
    with the registered variables laid over it. *)
Theorem registered_command_is_spawned
  now alias command c args url env description w fields servers
  args_value env_value l d :
  given command = Some c ->
  registry_of w = Some (JObj fields) ->
  lookup "servers" fields = Some (JObj servers) ->
  decoded args = Some args_value ->
  decoded env = Some env_value ->
  arg_list args_value = Some l ->
  env_dict env_value = Some d ->
  forallb is_str l = true ->
  str_values d = true ->
  round_trips
    (with_servers fields
       (dict_set alias
          (descriptor_of now "stdio" description command args_value url
             env_value) servers)) ->
  exists w',
    registry_add now alias "stdio" command args url env description w =
    (Return (added_text alias "stdio"), w') /\
    exists rest,
      trace (snd (remote_discover alias w')) =
      (trace w'
       ++ EMkdirs
       :: ESpawn (JStr c :: l) (dict_merge (ambient_env (environ w)) d)
       :: rest)%list.
Proof.
  intros Hc Hreg Hservers Hargs Henv Hl Hd Hstr_l Hstr_d Hrt.
  assert (Hok : invariant_ok "stdio" command url = true)
    by (unfold invariant_ok, is_given; rewrite Hc; reflexivity).
  destruct (registry_add_run now alias "stdio" command args url env
              description w fields servers args_value env_value
              Hok Hreg Hservers Hargs Henv)
    as (w' & Hrun & Hfile & _ & Hstable).
  exists w'. split; [exact Hrun | ].
  pose proof (servers_of_written _ _ _ Hfile Hrt) as Hafter.
  rewrite (remote_discover_known alias w' _ _ Hafter
             (lookup_dict_set_same alias _ servers)).
  rewrite (try_except_world _ _ _ (discover_except_world alias)).
  assert (Hdispatch :
            discover_try
              (descriptor_of now "stdio" description command args_value url
                 env_value) =
            _stdio_request
              (descriptor_of now "stdio" description command args_value url
                 env_value) "tools/list" (JObj []) _format_tools)
    by (apply discover_try_stdio; reflexivity).
  rewrite Hdispatch.
  destruct Hstable as (Henviron & _).
  destruct (stdio_request_spawns_first
              (descriptor_of now "stdio" description command args_value url
                 env_value)
              "tools/list" (JObj []) _format_tools (log EMkdirs w')
              (JStr c :: l) (dict_merge (ambient_env (environ w)) d))
    as [rest Htrace].
  - apply stored_command_line; assumption.
  - simpl. rewrite <- Henviron. eapply stored_child_env; eassumption.
  - simpl. exact Hstr_l.
  - apply str_values_dict_merge; [apply str_values_ambient | exact Hstr_d].
  - exists rest. rewrite Htrace. simpl. unfold append.
    rewrite <- app_assoc. reflexivity.
Qed.

(** What [registry_remove] has dropped the proxy no longer knows: after
    the removal of [alias], [remote_discover] and [remote_call] answer
    that the server was not found, and start nothing. *)
Theorem removed_server_is_not_found
  alias tool_name arguments w fields servers descriptor :
  registry_of w = Some (JObj fields) ->
  lookup "servers" fields = Some (JObj servers) ->
  lookup alias servers = Some descriptor ->
  round_trips (with_servers fields (dict_del alias servers)) ->
  exists w',
    registry_remove alias w = (Return (removed_text alias), w') /\
    remote_discover alias w' =
    (Return ("Server '" ++ alias
             ++ "' not found. Run registry_list() to see available servers."),
     log EMkdirs w') /\
    remote_call alias tool_name arguments w' =
    (Return ("Server '" ++ alias ++ "' not found."), log EMkdirs w').
Proof.
  intros Hreg Hservers Halias Hrt.
  destruct (registry_remove_run _ _ _ _ _ Hreg Hservers Halias)
    as (w' & Hrun & Hfile & _ & _).
  pose proof (servers_of_written _ _ _ Hfile Hrt) as Hafter.
  exists w'. split; [exact Hrun | split].
  - apply (remote_discover_unknown _ _ _ Hafter), lookup_dict_del_same.
  - apply (remote_call_unknown _ _ _ _ _ Hafter), lookup_dict_del_same.
Qed.

End StoreAndProxy.

(* ===================================================================== *)
(** ** What the registry store does to the outside *)
(* ===================================================================== *)

Section StoreEffects.

Context {rt : Runtime} {pp : Printer}.

Lemma stable_but_file_refl w : stable_but_file w w.
Proof. unfold stable_but_file. repeat split. Qed.

Lemma stable_but_file_trans w1 w2 w3 :
  stable_but_file w1 w2 -> stable_but_file w2 w3 -> stable_but_file w1 w3.
Proof.
  unfold stable_but_file.
  intros (a1 & a2 & a3 & a4 & a5 & a6 & a7 & a8 & a9)
         (b1 & b2 & b3 & b4 & b5 & b6 & b7 & b8 & b9).
  repeat split; congruence.
Qed.

Lemma bind_stable_but_file {A B} (m : M A) (k : A -> M B) :
  (forall w, stable_but_file w (snd (m w))) ->
  (forall a w, stable_but_file w (snd (k a w))) ->
  forall w, stable_but_file w (snd (bind m k w)).
Proof.
  intros Hm Hk w. unfold bind. specialize (Hm w).
  destruct (m w) as [[a | e] w1]; simpl in *.
  - eapply stable_but_file_trans; [exact Hm | apply Hk].
  - exact Hm.
Qed.

Lemma bind_same_world {A B} (m : M A) (k : A -> M B) w :
  (forall a w1, snd (k a w1) = w1) ->
  snd (bind m k w) = snd (m w).
Proof.
  intros Hk. unfold bind.
  destruct (m w) as [[a | e] w1]; simpl; [apply Hk | reflexivity].
Qed.

Lemma loads_same_world text w : snd (loads text w) = w.
Proof. unfold loads. destruct (json_loads text); reflexivity. Qed.

Lemma load_registry_world w : snd (_load_registry w) = log EMkdirs w.
Proof.
  unfold _load_registry, bind, _ensure_dirs. simpl.
  destruct (registry_file w); [apply loads_same_world | reflexivity].
Qed.

Lemma registry_entry_same_world
  now transport description command args url env w :
  snd (registry_entry now transport description command args url env w) = w.
Proof.
  unfold registry_entry.
  rewrite bind_same_world.
  - destruct (given args); [ | reflexivity].
    rewrite bind_same_world; [apply loads_same_world | reflexivity].
  - intros entry w1. destruct (given env); [ | reflexivity].
    rewrite bind_same_world; [apply loads_same_world | reflexivity].
Qed.

(** The operations that only read the registry, [registry_list] and
    [server_status], change nothing: whatever the registry file holds
    and however they end, the world they leave is the one they found,
    with the directories made sure of once.  The file is not written, no
    process is started, nothing goes to the audit log. *)
Theorem readers_change_nothing name w :
  snd (registry_list w) = log EMkdirs w /\
  snd (server_status name w) = log EMkdirs w.
Proof.
  split.
  - unfold registry_list.
    rewrite bind_same_world; [apply load_registry_world | ].
    intros registry w1.
    rewrite bind_same_world; [reflexivity | ].
    intros servers w2. destruct (negb (truthy servers)); [reflexivity | ].
    rewrite bind_same_world; [reflexivity | ]. intros servers' w3.
    rewrite bind_same_world; [reflexivity | ]. intros items w4.
    rewrite bind_same_world; reflexivity.
  - unfold server_status.
    rewrite bind_same_world; [apply load_registry_world | ].
    intros registry w1.
    rewrite bind_same_world; [reflexivity | ]. intros servers w2.
    rewrite bind_same_world; [reflexivity | ]. intros known w3.
    destruct (negb known); [reflexivity | ].
    rewrite bind_same_world; [reflexivity | ]. intros servers' w4.
    rewrite bind_same_world; [reflexivity | ]. intros server w5.
    rewrite bind_same_world; [reflexivity | ]. intros items w6.
    rewrite bind_same_world; reflexivity.
Qed.

Lemma emits_ensure_dirs : emits store_event _ensure_dirs.
Proof. apply (emits_one _ _ EMkdirs); reflexivity. Qed.

Lemma emits_load_registry : emits store_event _load_registry.
Proof.
  unfold _load_registry.
  apply emits_bind; [apply emits_ensure_dirs | intros _].
  apply emits_bind.
  - intros w. exists []. rewrite app_nil_r. split; reflexivity.
  - intros [text |]; [apply emits_loads | apply emits_ret].
Qed.

Lemma emits_save_registry registry :
  emits store_event (_save_registry registry).
Proof.
  unfold _save_registry.
  apply emits_bind; [apply emits_ensure_dirs | intros _].
  intros w. exists []. rewrite app_nil_r. split; reflexivity.
Qed.

Lemma emits_audit action details : emits store_event (_audit action details).
Proof.
  unfold _audit.
  apply emits_bind; [apply emits_ensure_dirs | intros _].
  apply (emits_one _ _ (EAudit action details)); reflexivity.
Qed.

Lemma emits_registry_entry now transport description command args url env :
  emits store_event
    (registry_entry now transport description command args url env).
Proof.
  unfold registry_entry.
  apply emits_bind.
  - destruct (given args); [ | apply emits_ret].
    apply emits_bind; [apply emits_loads | intros v; apply emits_ret].
  - intros entry. destruct (given env); [ | apply emits_ret].
    apply emits_bind; [apply emits_loads | intros v; apply emits_ret].
Qed.

Lemma load_registry_stable w : stable_but_file w (snd (_load_registry w)).
Proof.
  rewrite load_registry_world. unfold stable_but_file. simpl. repeat split.
Qed.

Lemma save_registry_stable registry w :
  stable_but_file w (snd (_save_registry registry w)).
Proof.
  destruct (save_registry_spec registry w) as (w' & Hrun & _ & _ & Hstable).
  rewrite Hrun. exact Hstable.
Qed.

Lemma audit_stable action details w :
  stable_but_file w (snd (_audit action details w)).
Proof. unfold stable_but_file. simpl. repeat split. Qed.

(** The operations that write the registry, [registry_add] and
    [registry_remove], touch the store and nothing else: whatever they
    are given and however they end, all they add to the trace is making
    sure of directories and lines of the audit log, and but for the
    registry file the world is as they found it.  No process is started
    or signalled, nothing is posted, no pipe is read. *)
Theorem writers_touch_only_the_store
  now alias transport command args url env description :
  emits store_event
    (registry_add now alias transport command args url env description) /\
  emits store_event (registry_remove alias) /\
  (forall w,
      stable_but_file w
        (snd (registry_add now alias transport command args url env
                description w))) /\
  (forall w, stable_but_file w (snd (registry_remove alias w))).
Proof.
  split; [ | split; [ | split]].
  - unfold registry_add.
    destruct (negb _); [apply emits_ret | ].
    destruct (_ && _); [apply emits_ret | ].
    destruct (_ && _); [apply emits_ret | ].
    apply emits_bind; [apply emits_load_registry | intros registry].
    apply emits_bind; [apply emits_registry_entry | intros entry].
    apply emits_bind; [apply emits_lift | intros registry'].
    apply emits_bind; [apply emits_save_registry | intros _].
    apply emits_bind; [apply emits_audit | intros _].
    apply emits_ret.
  - unfold registry_remove.
    apply emits_bind; [apply emits_load_registry | intros registry].
    apply emits_bind; [apply emits_lift | intros servers].
    apply emits_bind; [apply emits_lift | intros known].
    destruct (negb known); [apply emits_ret | ].
    apply emits_bind; [apply emits_lift | intros registry'].
    apply emits_bind; [apply emits_save_registry | intros _].
    apply emits_bind; [apply emits_audit | intros _].
    apply emits_ret.
  - unfold registry_add.
    destruct (negb _); [intros w; apply stable_but_file_refl | ].
    destruct (_ && _); [intros w; apply stable_but_file_refl | ].
    destruct (_ && _); [intros w; apply stable_but_file_refl | ].
    apply bind_stable_but_file; [apply load_registry_stable | ].
    intros registry.
    apply bind_stable_but_file;
      [intros w; rewrite registry_entry_same_world;
       apply stable_but_file_refl | ].
    intros entry.
    apply bind_stable_but_file; [intros w; apply stable_but_file_refl | ].
    intros registry'.
    apply bind_stable_but_file; [apply save_registry_stable | intros _].
    apply bind_stable_but_file; [apply audit_stable | intros _].
    intros w; apply stable_but_file_refl.
  - unfold registry_remove.
    apply bind_stable_but_file; [apply load_registry_stable | ].
    intros registry.
    apply bind_stable_but_file; [intros w; apply stable_but_file_refl | ].
    intros servers.
    apply bind_stable_but_file; [intros w; apply stable_but_file_refl | ].
    intros known.
    destruct (negb known); [intros w; apply stable_but_file_refl | ].
    apply bind_stable_but_file; [intros w; apply stable_but_file_refl | ].
    intros registry'.
    apply bind_stable_but_file; [apply save_registry_stable | intros _].
    apply bind_stable_but_file; [apply audit_stable | intros _].
    intros w; apply stable_but_file_refl.
Qed.

End StoreEffects.

(* ===================================================================== *)
(** ** The address the remote transport posts to *)
(* ===================================================================== *)

Lemma string_app_nil_r (s : string) : s ++ "" = s.
Proof. induction s as [| c s IH]; simpl; [ | rewrite IH]; reflexivity. Qed.

Lemma string_app_assoc (a b c : string) : (a ++ b) ++ c = a ++ (b ++ c).
Proof. induction a as [| x a IH]; simpl; [ | rewrite IH]; reflexivity. Qed.

Lemma string_rev_acc_app s : forall acc,
  string_rev_acc s acc = string_rev_acc s "" ++ acc.
Proof.
  induction s as [| c s IH]; intros acc; simpl; [reflexivity | ].
  rewrite (IH (String c acc)), (IH (String c "")).
  rewrite string_app_assoc. reflexivity.
Qed.

Lemma string_rev_acc_concat a : forall b acc,
  string_rev_acc (a ++ b) acc = string_rev_acc b (string_rev_acc a acc).
Proof.
  induction a as [| c a IH]; intros b acc; simpl; [reflexivity | apply IH].
Qed.

Lemma string_rev_acc_involutive s : forall acc t,
  string_rev_acc (string_rev_acc s acc) t = string_rev_acc acc (s ++ t).
Proof.
  induction s as [| c s IH]; intros acc t; simpl; [reflexivity | ].
  rewrite IH. reflexivity.
Qed.

Lemma slashes_snoc n : slashes n ++ "/" = String "/" (slashes n).
Proof. induction n as [| n IH]; simpl; [ | rewrite IH]; reflexivity. Qed.

Lemma string_rev_slashes n : string_rev_acc (slashes n) "" = slashes n.
Proof.
  induction n as [| n IH]; simpl; [reflexivity | ].
  rewrite string_rev_acc_app, IH. apply slashes_snoc.
Qed.

Lemma drop_leading_slashes r :
  exists n,
    r = slashes n ++ drop_leading "/" r /\
    match drop_leading "/" r with
    | String c _ => Ascii.eqb "/" c = false
    | EmptyString => True
    end.
Proof.
  induction r as [| c r (n & Heq & Hhead)]; cbn [drop_leading].
  - exists 0. split; [reflexivity | exact I].
  - destruct (Ascii.eqb "/" c) eqn:Hc.
    + apply Ascii.eqb_eq in Hc. subst c. exists (S n). split.
      * cbn [slashes String.append]. rewrite <- Heq. reflexivity.
      * exact Hhead.
    + exists 0. split; [reflexivity | exact Hc].
Qed.

Lemma ends_with_app c s : forall t,
  t <> "" -> ends_with c (s ++ t) = ends_with c t.
Proof.
  induction s as [| x s IH]; intros t Ht; simpl; [reflexivity | ].
  rewrite (IH t Ht).
  destruct (s ++ t) eqn:Hst; [ | reflexivity].
  destruct s; simpl in Hst; [contradiction | discriminate].
Qed.

Lemma ends_with_rev c r :
  match r with
  | String c' _ => Ascii.eqb c c' = false
  | EmptyString => True
  end ->
  ends_with c (string_rev_acc r "") = false.
Proof.
  destruct r as [| c' r]; simpl; [reflexivity | ].
  intros Hc. rewrite string_rev_acc_app.
  rewrite ends_with_app by discriminate. simpl. exact Hc.
Qed.

Lemma rstrip_slash_spec s :
  exists n,
    s = rstrip_slash s ++ slashes n /\
    ends_with "/" (rstrip_slash s) = false.
Proof.
  unfold rstrip_slash.
  destruct (drop_leading_slashes (string_rev_acc s "")) as (n & Heq & Hhead).
  exists n. split; [ | apply ends_with_rev; exact Hhead].
  assert (Hs : s = string_rev_acc (string_rev_acc s "") "")
    by (rewrite string_rev_acc_involutive, string_app_nil_r; reflexivity).
  rewrite Hs at 1. rewrite Heq at 1.
  rewrite string_rev_acc_concat, string_rev_slashes.
  apply string_rev_acc_app.
Qed.


(* ===================================================================== *)
(** ** The registry statements at the sample data *)
(* ===================================================================== *)

Import RegistrySamples.

(** A process server is added to the registry of [world0]. *)
Lemma registry_add_stores_descriptor_witness :
  exists w',
    registry_add (rt := R) (pp := Pretty.printer) stamp "files" "stdio"
      (Some "node") (Some files_args) None (Some files_env) "File server"
      world0 =
    (Return (added_text "files" "stdio"), w') /\
    resolve (rt := R) w' "files" = Some files_descriptor /\
    (forall other, other <> "files" ->
                   resolve (rt := R) w' other = resolve (rt := R) world0 other) /\
    descriptor_ok files_descriptor = true.
Proof.
  apply (@registry_add_stores_descriptor R Pretty.printer stamp "files"
           "stdio" (Some "node") (Some files_args) None (Some files_env)
           "File server" world0 sample_registry
           [("echo", echo_server); ("web", web_server)]
           (Some (JArr [JStr "server.js"; JStr "--root"]))
           (Some (JObj [("ROOT", JStr "/srv")])));
    vm_compute; reflexivity.
Defined.

(** A process server without a command. *)
Lemma registry_add_refuses_invalid_witness :
  exists msg,
    registry_add (rt := R) (pp := Pretty.printer) stamp "files" "stdio"
      (Some EmptyString) (Some files_args) None (Some files_env)
      "File server" world0 =
    (Return msg, world0) /\
    is_prefix "Error: " msg = true.
Proof.
  apply (@registry_add_refuses_invalid R Pretty.printer stamp "files"
           "stdio" (Some EmptyString) (Some files_args) None (Some files_env)
           "File server" world0).
  reflexivity.
Defined.

(** Arguments that are not JSON. *)
Lemma registry_add_undecodable_writes_nothing_witness :
  registry_add (rt := R) (pp := Pretty.printer) stamp "files" "stdio"
    (Some "node") (Some "{oops") None (Some files_env) "File server" world0 =
  (Raise JSONDecodeError, log EMkdirs world0).
Proof.
  apply (@registry_add_undecodable_writes_nothing R Pretty.printer stamp
           "files" "stdio" (Some "node") (Some "{oops") None (Some files_env)
           "File server" world0 (JObj sample_registry)).
  - reflexivity.
  - vm_compute. reflexivity.
  - left. vm_compute. reflexivity.
Defined.

(** [files] is not in the registry of [world0]; [echo] is. *)
Lemma registry_remove_drops_descriptor_witness :
  registry_remove (rt := R) (pp := Pretty.printer) "files" world0 =
  (Return "Server 'files' not found in registry.", log EMkdirs world0) /\
  exists w',
    registry_remove (rt := R) (pp := Pretty.printer) "echo" world0 =
    (Return (removed_text "echo"), w') /\
    resolve (rt := R) w' "echo" = None /\
    (forall other, other <> "echo" ->
                   resolve (rt := R) w' other = resolve (rt := R) world0 other).
Proof.
  split.
  - apply (proj1 (@registry_remove_drops_descriptor R Pretty.printer)
             "files" world0 [("echo", echo_server); ("web", web_server)]);
      vm_compute; reflexivity.
  - apply (proj2 (@registry_remove_drops_descriptor R Pretty.printer)
             "echo" world0 sample_registry
             [("echo", echo_server); ("web", web_server)] echo_server);
      vm_compute; reflexivity.
Defined.

(** [files] is added to the registry of [world0] and removed again. *)
Lemma registry_add_then_remove_restores_witness :
  exists w' w'',
    registry_add (rt := R) (pp := Pretty.printer) stamp "files" "stdio"
      (Some "node") (Some files_args) None (Some files_env) "File server"
      world0 =
    (Return (added_text "files" "stdio"), w') /\
    registry_remove (rt := R) (pp := Pretty.printer) "files" w' =
    (Return (removed_text "files"), w'') /\
    registry_of (rt := R) w'' = registry_of (rt := R) world0.
Proof.
  apply (@registry_add_then_remove_restores R Pretty.printer stamp "files"
           "stdio" (Some "node") (Some files_args) None (Some files_env)
           "File server" world0 sample_registry
           [("echo", echo_server); ("web", web_server)]
           (Some (JArr [JStr "server.js"; JStr "--root"]))
           (Some (JObj [("ROOT", JStr "/srv")])));
    vm_compute; reflexivity.
Defined.

(** The two servers of [world0], listed. *)
Lemma registry_list_lines_witness :
  registry_list (rt := R) world0 =
  (Return ("Registered servers:" ++ nl
           ++ "  echo | stdio | external | " ++ nl
           ++ "  web | sse | external | "),
   log EMkdirs world0).
Proof.
  apply (@registry_list_lines R world0
           [("echo", echo_server); ("web", web_server)]);
    vm_compute; reflexivity.
Defined.

(** The status of [echo] does not tell [test] from [production]. *)
Lemma server_status_redacts_env_witness :
  fst (server_status (rt := R) "echo" world0) =
  fst (server_status (rt := R) "echo" prod_world).
Proof.
  apply (@server_status_redacts_env R "echo" world0 prod_world
           [("echo", echo_server); ("web", web_server)]
           [("echo", JObj echo_prod_fields)] echo_fields echo_prod_fields);
    try (vm_compute; reflexivity).
  unfold echo_fields, echo_prod_fields.
  do 3 apply same_field. apply same_env; [reflexivity | apply same_nil].
Defined.

(** A descriptor with the transport [websocket]. *)
Lemma unknown_transport_starts_nothing_witness :
  remote_discover (rt := R) "ws" socket_world =
  (Return "Unknown transport: websocket", log EMkdirs socket_world) /\
  remote_call (rt := R) "ws" "ping" "{}" socket_world =
  (Return "Unknown transport: websocket",
   audited "ws" "ping" "{}" socket_world).
Proof.
  apply (@unknown_transport_starts_nothing R "ws" "ping" "{}" socket_world
           [("ws", JObj socket_fields)] socket_fields (JStr "websocket")
           (JObj []));
    vm_compute; reflexivity.
Defined.

(** The descriptor's [PATH] wins over the ambient one; [HOME] is passed
    on; an [env] that is a list is refused. *)
Lemma child_env_overrides_witness :
  (exists env,
      child_env [("PATH", "/usr/bin"); ("HOME", "/root")]
        (JObj shadowing_fields) = Return env /\
      lookup "PATH" env = Some (JStr "/opt/bin") /\
      lookup "HOME" env = Some (JStr "/root") /\
      lookup "MODE" env = Some (JStr "test")) /\
  child_env [("PATH", "/usr/bin")]
    (JObj [("command", JStr "python"); ("env", JArr [])]) =
  Raise TypeError.
Proof.
  split.
  - destruct (proj1 (child_env_overrides
                       [("PATH", "/usr/bin"); ("HOME", "/root")]
                       shadowing_fields)
                [("PATH", JStr "/opt/bin"); ("MODE", JStr "test")])
      as (env & Henv & Hlookup).
    + reflexivity.
    + repeat constructor; simpl; intuition discriminate.
    + exists env. split; [exact Henv | ].
      rewrite !Hlookup. repeat split.
  - apply (proj2 (child_env_overrides [("PATH", "/usr/bin")]
                    [("command", JStr "python"); ("env", JArr [])])
             (JArr [])); reflexivity.
Defined.

(** [files] is registered in [world0] and discovered. *)
Lemma registered_command_is_spawned_witness :
  exists w',
    registry_add (rt := R) (pp := Pretty.printer) stamp "files" "stdio"
      (Some "node") (Some files_args) None (Some files_env) "File server"
      world0 =
    (Return (added_text "files" "stdio"), w') /\
    exists rest,
      trace (snd (remote_discover (rt := R) "files" w')) =
      (trace w'
       ++ EMkdirs
       :: ESpawn [JStr "node"; JStr "server.js"; JStr "--root"]
                 [("PATH", JStr "/usr/bin"); ("ROOT", JStr "/srv")]
       :: rest)%list.
Proof.
  apply (@registered_command_is_spawned R Pretty.printer stamp "files"
           (Some "node") "node" (Some files_args) None (Some files_env)
           "File server" world0 sample_registry
           [("echo", echo_server); ("web", web_server)]
           (Some (JArr [JStr "server.js"; JStr "--root"]))
           (Some (JObj [("ROOT", JStr "/srv")]))
           [JStr "server.js"; JStr "--root"] [("ROOT", JStr "/srv")]);
    vm_compute; reflexivity.
Defined.

(** [echo] is removed from the registry of [world0] and asked for. *)
Lemma removed_server_is_not_found_witness :
  exists w',
    registry_remove (rt := R) (pp := Pretty.printer) "echo" world0 =
    (Return (removed_text "echo"), w') /\
    remote_discover (rt := R) "echo" w' =
    (Return "Server 'echo' not found. Run registry_list() to see available servers.",
     log EMkdirs w') /\
    remote_call (rt := R) "echo" "search" "{}" w' =
    (Return "Server 'echo' not found.", log EMkdirs w').
Proof.
  apply (@removed_server_is_not_found R Pretty.printer "echo" "search" "{}"
           world0 sample_registry
           [("echo", echo_server); ("web", web_server)] echo_server);
    vm_compute; reflexivity.
Defined.

